(** * pkg/awsclient/elb_helper.go: the classic-ELB helper of the
      cloud-ingress-operator

    The Go file is a thin client: every exported function builds one request
    of the AWS SDK's [elb] package, sends it through the receiver
    [c *awsClient] and classifies the answer.  The embedding keeps that
    shape.  The receiver is a record of the seven remote methods the file
    calls, each a state transformer on the provider's state; the Go functions
    are written once, for every such receiver, in a small state monad whose
    outcomes are "returned" or "panicked" (the file dereferences pointers the
    SDK hands back). *)

From stdpp Require Import base option list strings pretty gmap.

Open Scope Z_scope.
Open Scope string_scope.

(** ** Go values *)

(** Go's [error] interface, nil being [None : option error].  The file tells
    provider-typed errors (those satisfying [awserr.Error], which carry a
    [Code()]) from all other errors by a type assertion, so the two shapes are
    two constructors. *)
Inductive error : Type :=
| AwsError (code message : string)
| PlainError (message : string).

#[global] Instance error_eq_dec : EqDecision error.
Proof. solve_decision. Defined.

(** The type assertion [aerr, ok := err.(awserr.Error)]; the result is the
    error's [Code()] when [ok]. *)
Definition as_awserr (err : error) : option string :=
  match err with
  | AwsError code _ => Some code
  | PlainError _ => None
  end.

(** Error codes of the SDK's [elb] package ([elb.ErrCode...]). *)
Definition ErrCodeAccessPointNotFoundException : string := "LoadBalancerNotFound".
Definition ErrCodeDuplicateAccessPointNameException : string := "DuplicateLoadBalancerName".
Definition ErrCodeDuplicateListenerException : string := "DuplicateListener".
Definition ErrCodeListenerNotFoundException : string := "ListenerNotFound".

(** A run-time panic of the Go program. *)
Inductive panic : Type :=
| NilPointerDereference
| IndexOutOfRange.

Inductive outcome (A : Type) : Type :=
| Returned (a : A)
| Panicked (p : panic).
Arguments Returned {A} a.
Arguments Panicked {A} p.

(** ** The request and response structs of package [elb]

    Pointer-typed scalar fields that the file always fills through
    [aws.String], [aws.Int64] and the like are plain values; pointer fields
    the file reads from a response are options, [None] being nil.  [int64]
    values are [Z]; the file does no arithmetic on them. *)

Record Listener : Type := {
  InstancePort : Z;
  InstanceProtocol : string;
  Protocol : string;
  LoadBalancerPort : Z
}.

#[global] Instance Listener_eq_dec : EqDecision Listener.
Proof. solve_decision. Defined.

Record HealthCheck : Type := {
  HealthyThreshold : Z;
  Interval : Z;
  Target : string;
  Timeout : Z;
  UnhealthyThreshold : Z
}.

#[global] Instance HealthCheck_eq_dec : EqDecision HealthCheck.
Proof. solve_decision. Defined.

Record Instance : Type := { InstanceId : string }.

#[global] Instance Instance_eq_dec : EqDecision Instance.
Proof. solve_decision. Defined.

Record CreateLoadBalancerInput : Type := {
  CreateLoadBalancerInput_LoadBalancerName : string;
  CreateLoadBalancerInput_Subnets : list string;
  CreateLoadBalancerInput_Listeners : list Listener
}.

Record CreateLoadBalancerOutput : Type := {
  CreateLoadBalancerOutput_DNSName : option string
}.

Record ConfigureHealthCheckInput : Type := {
  ConfigureHealthCheckInput_HealthCheck : HealthCheck;
  ConfigureHealthCheckInput_LoadBalancerName : string
}.

Record ConfigureHealthCheckOutput : Type := {
  ConfigureHealthCheckOutput_HealthCheck : option HealthCheck
}.

Record CreateLoadBalancerListenersInput : Type := {
  CreateLoadBalancerListenersInput_Listeners : list Listener;
  CreateLoadBalancerListenersInput_LoadBalancerName : string
}.

Record DeleteLoadBalancerListenersInput : Type := {
  DeleteLoadBalancerListenersInput_LoadBalancerName : string;
  DeleteLoadBalancerListenersInput_LoadBalancerPorts : list Z
}.

Record RegisterInstancesWithLoadBalancerInput : Type := {
  RegisterInstancesWithLoadBalancerInput_Instances : list Instance;
  RegisterInstancesWithLoadBalancerInput_LoadBalancerName : string
}.

Record DeregisterInstancesFromLoadBalancerInput : Type := {
  DeregisterInstancesFromLoadBalancerInput_Instances : list Instance;
  DeregisterInstancesFromLoadBalancerInput_LoadBalancerName : string
}.

Record DescribeLoadBalancersInput : Type := {
  DescribeLoadBalancersInput_LoadBalancerNames : list string
}.

Record LoadBalancerDescription : Type := {
  LoadBalancerDescription_DNSName : option string
}.

(** [LoadBalancerDescriptions] is a [[]*LoadBalancerDescription]: a slice of
    pointers, each of which may be nil. *)
Record DescribeLoadBalancersOutput : Type := {
  DescribeLoadBalancersOutput_LoadBalancerDescriptions :
    list (option LoadBalancerDescription)
}.

(** The outputs of the four mutating calls are discarded by the file
    ([_, err := ...]); they are empty structs in the SDK. *)
Inductive EmptyOutput : Type := empty_output.

(** What a remote method hands back: Go's pair of an output pointer and an
    [error], either of which may be nil. *)
Definition response (Out : Type) : Type := option Out * option error.

(** ** The receiver

    [awsClient] stands for the [c *awsClient] receiver: the remote methods
    this file invokes on it, acting on the provider's state [St].  Their
    bodies are not part of the file; everything below holds for whichever
    client is plugged in unless a statement names one. *)
Record awsClient (St : Type) : Type := {
  CreateLoadBalancer :
    CreateLoadBalancerInput -> St -> response CreateLoadBalancerOutput * St;
  ConfigureHealthCheck :
    ConfigureHealthCheckInput -> St -> response ConfigureHealthCheckOutput * St;
  CreateLoadBalancerListeners :
    CreateLoadBalancerListenersInput -> St -> response EmptyOutput * St;
  DeleteLoadBalancerListeners :
    DeleteLoadBalancerListenersInput -> St -> response EmptyOutput * St;
  RegisterInstancesWithLoadBalancer :
    RegisterInstancesWithLoadBalancerInput -> St -> response EmptyOutput * St;
  DeregisterInstancesWithLoadBalancer :
    DeregisterInstancesFromLoadBalancerInput -> St -> response EmptyOutput * St;
  DescribeLoadBalancers :
    DescribeLoadBalancersInput -> St -> response DescribeLoadBalancersOutput * St
}.
Arguments CreateLoadBalancer {St} _ _ _.
Arguments ConfigureHealthCheck {St} _ _ _.
Arguments CreateLoadBalancerListeners {St} _ _ _.
Arguments DeleteLoadBalancerListeners {St} _ _ _.
Arguments RegisterInstancesWithLoadBalancer {St} _ _ _.
Arguments DeregisterInstancesWithLoadBalancer {St} _ _ _.
Arguments DescribeLoadBalancers {St} _ _ _.

(** ** The monad the Go functions run in *)

Definition Go (St A : Type) : Type := St -> outcome A * St.

#[global] Instance Go_ret {St} : MRet (Go St) :=
  fun A (a : A) s => (Returned a, s).

#[global] Instance Go_bind {St} : MBind (Go St) :=
  fun A B (k : A -> Go St B) (m : Go St A) s =>
    match m s with
    | (Returned a, s') => k a s'
    | (Panicked p, s') => (Panicked p, s')
    end.

(** One round trip to the provider. *)
Definition call {St In Out} (method : In -> St -> response Out * St) (i : In)
  : Go St (response Out) :=
  fun s => let '(r, s') := method i s in (Returned r, s').

(** [*p]: dereferencing nil panics. *)
Definition deref {St A} (p : option A) : Go St A :=
  fun s =>
    match p with
    | Some a => (Returned a, s)
    | None => (Panicked NilPointerDereference, s)
    end.

(** [xs[0]]: indexing an empty slice panics. *)
Definition index0 {St A} (xs : list A) : Go St A :=
  fun s =>
    match xs with
    | x :: _ => (Returned x, s)
    | [] => (Panicked IndexOutOfRange, s)
    end.

(** [fmt.Sprintf("%s:%d%s", protocol, port, path)]. *)
Definition Sprintf_s_d_s (protocol : string) (port : Z) (path : string) : string :=
  protocol +:+ ":" +:+ pretty port +:+ path.

(** ** The functions of elb_helper.go

    The [fmt.Printf] progress lines write to standard output and influence
    nothing else; they are left out. *)

Section Client.
Context {St : Type}.
Variable c : awsClient St.

Definition addHealthCheck (loadBalancerName protocol path : string) (port : Z)
  : Go St (option error) :=
  let i := {|
    ConfigureHealthCheckInput_HealthCheck := {|
      HealthyThreshold := 2;
      Interval := 30;
      Target := Sprintf_s_d_s protocol port path;
      Timeout := 3;
      UnhealthyThreshold := 2
    |};
    ConfigureHealthCheckInput_LoadBalancerName := loadBalancerName
  |} in
  '(_, err) ← call (ConfigureHealthCheck c) i;
  mret err.

Definition CreateClassicELB (elbName : string) (subnets : list string)
    (listenerPort : Z) : Go St (string * option error) :=
  let i := {|
    CreateLoadBalancerInput_LoadBalancerName := elbName;
    CreateLoadBalancerInput_Subnets := subnets;
    CreateLoadBalancerInput_Listeners := [
      {| InstancePort := listenerPort;
         InstanceProtocol := "tcp";
         Protocol := "tcp";
         LoadBalancerPort := listenerPort |}
    ]
  |} in
  '(o, err) ← call (CreateLoadBalancer c) i;
  match err with
  | Some e => mret ("", Some e)
  | None =>
      err ← addHealthCheck elbName "HTTP" "/" 6443;
      match err with
      | Some e => mret ("", Some e)
      | None =>
          o ← deref o;
          dns ← deref (CreateLoadBalancerOutput_DNSName o);
          mret (dns, None)
      end
  end.

Definition removeListenersFromELB (elbName : string) : Go St (option error) :=
  let i := {|
    DeleteLoadBalancerListenersInput_LoadBalancerName := elbName;
    DeleteLoadBalancerListenersInput_LoadBalancerPorts := [6443]
  |} in
  '(_, err) ← call (DeleteLoadBalancerListeners c) i;
  mret err.

Definition addListenersToELB (elbName : string) (listeners : list Listener)
  : Go St (option error) :=
  let i := {|
    CreateLoadBalancerListenersInput_Listeners := listeners;
    CreateLoadBalancerListenersInput_LoadBalancerName := elbName
  |} in
  '(_, err) ← call (CreateLoadBalancerListeners c) i;
  mret err.

Definition SetLoadBalancerPrivate (elbName : string) : Go St (option error) :=
  removeListenersFromELB elbName.

Definition SetLoadBalancerPublic (elbName : string) (listenerPort : Z)
  : Go St (option error) :=
  let l := [
    {| InstancePort := listenerPort;
       InstanceProtocol := "tcp";
       Protocol := "tcp";
       LoadBalancerPort := listenerPort |}
  ] in
  addListenersToELB elbName l.

(** The loop [for _, instance := range instanceIds { instances =
    append(instances, &elb.Instance{...}) }] starting from the empty slice. *)
Definition instances_of (instanceIds : list string) : list Instance :=
  fold_left (fun instances instance => (instances ++ [{| InstanceId := instance |}])%list)
            instanceIds [].

Definition AddLoadBalancerInstances (elbName : string) (instanceIds : list string)
  : Go St (option error) :=
  let instances := instances_of instanceIds in
  let i := {|
    RegisterInstancesWithLoadBalancerInput_Instances := instances;
    RegisterInstancesWithLoadBalancerInput_LoadBalancerName := elbName
  |} in
  '(_, err) ← call (RegisterInstancesWithLoadBalancer c) i;
  mret err.

Definition RemoveInstancesFromLoadBalancer (elbName : string)
    (instanceIds : list string) : Go St (option error) :=
  let instances := instances_of instanceIds in
  let i := {|
    DeregisterInstancesFromLoadBalancerInput_Instances := instances;
    DeregisterInstancesFromLoadBalancerInput_LoadBalancerName := elbName
  |} in
  '(_, err) ← call (DeregisterInstancesWithLoadBalancer c) i;
  mret err.

(** When [err] is non-nil but fails the type assertion, neither [return] of
    the [switch] runs and control reaches the last line, as it does when
    [err] is nil. *)
Definition DoesELBExist (elbName : string) : Go St (bool * string * option error) :=
  let i := {| DescribeLoadBalancersInput_LoadBalancerNames := [elbName] |} in
  '(res, err) ← call (DescribeLoadBalancers c) i;
  let last_line : Go St (bool * string * option error) :=
    res ← deref res;
    d ← index0 (DescribeLoadBalancersOutput_LoadBalancerDescriptions res);
    d ← deref d;
    dns ← deref (LoadBalancerDescription_DNSName d);
    mret (true, dns, None) in
  match err with
  | Some e =>
      match as_awserr e with
      | Some code =>
          if decide (code = ErrCodeAccessPointNotFoundException)
          then mret (false, "", None)
          else mret (false, "", Some e)
      | None => last_line
      end
  | None => last_line
  end.

End Client.

(** ** Observing what a client is asked

    [recording c] behaves as [c] and appends every request it receives to a
    log kept next to the provider's state, the way a test double of the
    receiver would. *)

Inductive Request : Type :=
| CreateLoadBalancerRequest (i : CreateLoadBalancerInput)
| ConfigureHealthCheckRequest (i : ConfigureHealthCheckInput)
| CreateLoadBalancerListenersRequest (i : CreateLoadBalancerListenersInput)
| DeleteLoadBalancerListenersRequest (i : DeleteLoadBalancerListenersInput)
| RegisterInstancesWithLoadBalancerRequest (i : RegisterInstancesWithLoadBalancerInput)
| DeregisterInstancesFromLoadBalancerRequest (i : DeregisterInstancesFromLoadBalancerInput)
| DescribeLoadBalancersRequest (i : DescribeLoadBalancersInput).

Definition recorded {St In Out} (tag : In -> Request)
    (method : In -> St -> response Out * St)
  : In -> St * list Request -> response Out * (St * list Request) :=
  fun i sl =>
    let '(r, s') := method i sl.1 in
    (r, (s', sl.2 ++ [tag i])%list).

Definition recording {St} (c : awsClient St) : awsClient (St * list Request) := {|
  CreateLoadBalancer := recorded CreateLoadBalancerRequest (CreateLoadBalancer c);
  ConfigureHealthCheck := recorded ConfigureHealthCheckRequest (ConfigureHealthCheck c);
  CreateLoadBalancerListeners :=
    recorded CreateLoadBalancerListenersRequest (CreateLoadBalancerListeners c);
  DeleteLoadBalancerListeners :=
    recorded DeleteLoadBalancerListenersRequest (DeleteLoadBalancerListeners c);
  RegisterInstancesWithLoadBalancer :=
    recorded RegisterInstancesWithLoadBalancerRequest
             (RegisterInstancesWithLoadBalancer c);
  DeregisterInstancesWithLoadBalancer :=
    recorded DeregisterInstancesFromLoadBalancerRequest
             (DeregisterInstancesWithLoadBalancer c);
  DescribeLoadBalancers := recorded DescribeLoadBalancersRequest (DescribeLoadBalancers c)
|}.

(** A receiver whose describe call answers [r] whatever it is asked and whose
    other methods are never reached by [DoesELBExist]: the stub a unit test of
    that function plugs in. *)
Definition unreached {In Out} : In -> unit -> response Out * unit :=
  fun _ s => ((None, Some (PlainError "not stubbed")), s).

Definition describing (r : response DescribeLoadBalancersOutput) : awsClient unit := {|
  CreateLoadBalancer := unreached;
  ConfigureHealthCheck := unreached;
  CreateLoadBalancerListeners := unreached;
  DeleteLoadBalancerListeners := unreached;
  RegisterInstancesWithLoadBalancer := unreached;
  DeregisterInstancesWithLoadBalancer := unreached;
  DescribeLoadBalancers := fun _ s => (r, s)
|}.

(** ** The provider

    The remote service is outside the repository.  Its model below follows
    the spec's data model: a load balancer is found by its name, holds
    listeners keyed by frontend port, at most one health check (last write
    wins) and a set of instance ids.  Where the spec leaves the provider's
    answer open the model takes a [Provider] policy: whether deleting a
    listener that is not there is reported as a not-found condition, whether
    re-creating an identical listener is rejected, and which requests the
    provider turns down with a fault of its own (throttling, authorisation, a
    broken connection) before acting on them.  As in the SDK, the output
    pointer is never nil; on an error it points to the zero value. *)

(** Modelled from the spec: the state the remote LoadBalancerService keeps
    for one load balancer (DNS name, subnets, listeners keyed by frontend
    port, the health check, the membership set); the service itself is not
    part of the repository. *)
Record LoadBalancer : Type := {
  lb_dns : string;
  lb_subnets : list string;
  lb_listeners : gmap Z Listener;
  lb_health : option HealthCheck;
  lb_members : gset string
}.

(** Modelled from the spec: the behaviour the spec calls provider-defined,
    as the parameters of the service model. *)
Record Provider : Type := {
  reports_absent_listener : bool;
  rejects_identical_listener : bool;
  fault : Request -> option error
}.

Definition with_listeners (lb : LoadBalancer) (ls : gmap Z Listener) : LoadBalancer :=
  {| lb_dns := lb_dns lb; lb_subnets := lb_subnets lb; lb_listeners := ls;
     lb_health := lb_health lb; lb_members := lb_members lb |}.

Definition with_health (lb : LoadBalancer) (h : HealthCheck) : LoadBalancer :=
  {| lb_dns := lb_dns lb; lb_subnets := lb_subnets lb;
     lb_listeners := lb_listeners lb;
     lb_health := Some h; lb_members := lb_members lb |}.

Definition with_members (lb : LoadBalancer) (m : gset string) : LoadBalancer :=
  {| lb_dns := lb_dns lb; lb_subnets := lb_subnets lb;
     lb_listeners := lb_listeners lb;
     lb_health := lb_health lb; lb_members := m |}.

Definition put_listeners (ls : list Listener) (m : gmap Z Listener) : gmap Z Listener :=
  foldr (fun l acc => <[LoadBalancerPort l := l]> acc) m ls.

Definition drop_listeners (ports : list Z) (m : gmap Z Listener) : gmap Z Listener :=
  foldr delete m ports.

Definition ids_of (instances : list Instance) : gset string :=
  list_to_set (InstanceId <$> instances).

Definition no_such_lb (name : string) : error :=
  AwsError ErrCodeAccessPointNotFoundException
           ("There is no ACTIVE Load Balancer named '" +:+ name +:+ "'").

Definition duplicate_listener : error :=
  AwsError ErrCodeDuplicateListenerException "a listener already exists on that port".

Definition listener_not_found : error :=
  AwsError ErrCodeListenerNotFoundException "no listener on that port".

Definition name_taken : error :=
  AwsError ErrCodeDuplicateAccessPointNameException "load balancer name is taken".

Definition dns_for (name : string) : string := name +:+ ".elb.amazonaws.com".

(** Does [l] collide with what the load balancer already listens on? *)
Definition listener_clash (P : Provider) (m : gmap Z Listener) (l : Listener) : bool :=
  match m !! LoadBalancerPort l with
  | None => false
  | Some l' => if decide (l' = l) then rejects_identical_listener P else true
  end.

Section Remote.
Variable P : Provider.

Definition remote_create (i : CreateLoadBalancerInput) (s : gmap string LoadBalancer)
  : response CreateLoadBalancerOutput * gmap string LoadBalancer :=
  let name := CreateLoadBalancerInput_LoadBalancerName i in
  let zero := Some {| CreateLoadBalancerOutput_DNSName := None |} in
  match fault P (CreateLoadBalancerRequest i) with
  | Some e => ((zero, Some e), s)
  | None =>
      match s !! name with
      | Some _ =>
          ((zero, Some name_taken), s)
      | None =>
          ((Some {| CreateLoadBalancerOutput_DNSName := Some (dns_for name) |}, None),
           <[name := {| lb_dns := dns_for name;
                        lb_subnets := CreateLoadBalancerInput_Subnets i;
                        lb_listeners :=
                          put_listeners (CreateLoadBalancerInput_Listeners i) ∅;
                        lb_health := None;
                        lb_members := ∅ |}]> s)
      end
  end.

Definition remote_configure_health_check (i : ConfigureHealthCheckInput)
    (s : gmap string LoadBalancer)
  : response ConfigureHealthCheckOutput * gmap string LoadBalancer :=
  let name := ConfigureHealthCheckInput_LoadBalancerName i in
  let h := ConfigureHealthCheckInput_HealthCheck i in
  let zero := Some {| ConfigureHealthCheckOutput_HealthCheck := None |} in
  match fault P (ConfigureHealthCheckRequest i) with
  | Some e => ((zero, Some e), s)
  | None =>
      match s !! name with
      | None => ((zero, Some (no_such_lb name)), s)
      | Some lb =>
          ((Some {| ConfigureHealthCheckOutput_HealthCheck := Some h |}, None),
           <[name := with_health lb h]> s)
      end
  end.

Definition remote_create_listeners (i : CreateLoadBalancerListenersInput)
    (s : gmap string LoadBalancer) : response EmptyOutput * gmap string LoadBalancer :=
  let name := CreateLoadBalancerListenersInput_LoadBalancerName i in
  let ls := CreateLoadBalancerListenersInput_Listeners i in
  match fault P (CreateLoadBalancerListenersRequest i) with
  | Some e => ((Some empty_output, Some e), s)
  | None =>
      match s !! name with
      | None => ((Some empty_output, Some (no_such_lb name)), s)
      | Some lb =>
          if existsb (listener_clash P (lb_listeners lb)) ls
          then ((Some empty_output, Some duplicate_listener), s)
          else ((Some empty_output, None),
                <[name := with_listeners lb (put_listeners ls (lb_listeners lb))]> s)
      end
  end.

Definition remote_delete_listeners (i : DeleteLoadBalancerListenersInput)
    (s : gmap string LoadBalancer) : response EmptyOutput * gmap string LoadBalancer :=
  let name := DeleteLoadBalancerListenersInput_LoadBalancerName i in
  let ports := DeleteLoadBalancerListenersInput_LoadBalancerPorts i in
  match fault P (DeleteLoadBalancerListenersRequest i) with
  | Some e => ((Some empty_output, Some e), s)
  | None =>
      match s !! name with
      | None => ((Some empty_output, Some (no_such_lb name)), s)
      | Some lb =>
          if reports_absent_listener P
             && existsb (fun p => bool_decide (lb_listeners lb !! p = None)) ports
          then ((Some empty_output, Some listener_not_found), s)
          else ((Some empty_output, None),
                <[name := with_listeners lb (drop_listeners ports (lb_listeners lb))]> s)
      end
  end.

Definition remote_register (i : RegisterInstancesWithLoadBalancerInput)
    (s : gmap string LoadBalancer) : response EmptyOutput * gmap string LoadBalancer :=
  let name := RegisterInstancesWithLoadBalancerInput_LoadBalancerName i in
  let ids := ids_of (RegisterInstancesWithLoadBalancerInput_Instances i) in
  match fault P (RegisterInstancesWithLoadBalancerRequest i) with
  | Some e => ((Some empty_output, Some e), s)
  | None =>
      match s !! name with
      | None => ((Some empty_output, Some (no_such_lb name)), s)
      | Some lb =>
          ((Some empty_output, None),
           <[name := with_members lb (lb_members lb ∪ ids)]> s)
      end
  end.

Definition remote_deregister (i : DeregisterInstancesFromLoadBalancerInput)
    (s : gmap string LoadBalancer) : response EmptyOutput * gmap string LoadBalancer :=
  let name := DeregisterInstancesFromLoadBalancerInput_LoadBalancerName i in
  let ids := ids_of (DeregisterInstancesFromLoadBalancerInput_Instances i) in
  match fault P (DeregisterInstancesFromLoadBalancerRequest i) with
  | Some e => ((Some empty_output, Some e), s)
  | None =>
      match s !! name with
      | None => ((Some empty_output, Some (no_such_lb name)), s)
      | Some lb =>
          ((Some empty_output, None),
           <[name := with_members lb (lb_members lb ∖ ids)]> s)
      end
  end.

Definition describe_one (s : gmap string LoadBalancer) (name : string)
  : option (option LoadBalancerDescription) :=
  lb ← s !! name;
  Some (Some {| LoadBalancerDescription_DNSName := Some (lb_dns lb) |}).

Definition first_unknown (s : gmap string LoadBalancer) (names : list string)
  : option string :=
  head (filter (fun n => s !! n = None) names).

Definition remote_describe (i : DescribeLoadBalancersInput)
    (s : gmap string LoadBalancer)
  : response DescribeLoadBalancersOutput * gmap string LoadBalancer :=
  let names := DescribeLoadBalancersInput_LoadBalancerNames i in
  let zero := Some {| DescribeLoadBalancersOutput_LoadBalancerDescriptions := [] |} in
  match fault P (DescribeLoadBalancersRequest i) with
  | Some e => ((zero, Some e), s)
  | None =>
      match first_unknown s names with
      | Some n => ((zero, Some (no_such_lb n)), s)
      | None =>
          ((Some {| DescribeLoadBalancersOutput_LoadBalancerDescriptions :=
                      omap (describe_one s) names |}, None), s)
      end
  end.

(** Modelled from the spec: the remote LoadBalancerService as a receiver,
    its seven methods being the operations of the spec's consumed capability
    (CreateLoadBalancer, ConfigureHealthCheck, CreateListeners,
    DeleteListeners, RegisterInstances, DeregisterInstances,
    DescribeLoadBalancer); the service is not part of the repository. *)
Definition remote : awsClient (gmap string LoadBalancer) := {|
  CreateLoadBalancer := remote_create;
  ConfigureHealthCheck := remote_configure_health_check;
  CreateLoadBalancerListeners := remote_create_listeners;
  DeleteLoadBalancerListeners := remote_delete_listeners;
  RegisterInstancesWithLoadBalancer := remote_register;
  DeregisterInstancesWithLoadBalancer := remote_deregister;
  DescribeLoadBalancers := remote_describe
|}.

End Remote.

(** The listener a load balancer holds on a frontend port, and its members. *)
Definition listener_on (s : gmap string LoadBalancer) (name : string) (port : Z)
  : option Listener :=
  lb ← s !! name; lb_listeners lb !! port.

Definition members_of (s : gmap string LoadBalancer) (name : string) : gset string :=
  default ∅ (lb_members <$> s !! name).

(** Providers used in the examples. *)
Definition no_fault : Request -> option error := fun _ => None.

Definition lenient : Provider :=
  {| reports_absent_listener := false;
     rejects_identical_listener := false;
     fault := no_fault |}.

Definition strict : Provider :=
  {| reports_absent_listener := true;
     rejects_identical_listener := true;
     fault := no_fault |}.

Definition throttled : error := AwsError "Throttling" "Rate exceeded".

Definition throttles_create : Provider :=
  {| reports_absent_listener := false;
     rejects_identical_listener := false;
     fault := fun r => match r with
                       | CreateLoadBalancerRequest _ => Some throttled
                       | _ => None
                       end |}.

Definition throttles_health_check : Provider :=
  {| reports_absent_listener := false;
     rejects_identical_listener := false;
     fault := fun r => match r with
                       | ConfigureHealthCheckRequest _ => Some throttled
                       | _ => None
                       end |}.


(** ** The requests the file builds, by name *)

Definition tcp_listener (port : Z) : Listener :=
  {| InstancePort := port; InstanceProtocol := "tcp";
     Protocol := "tcp"; LoadBalancerPort := port |}.

Definition create_input (elbName : string) (subnets : list string) (listenerPort : Z)
  : CreateLoadBalancerInput :=
  {| CreateLoadBalancerInput_LoadBalancerName := elbName;
     CreateLoadBalancerInput_Subnets := subnets;
     CreateLoadBalancerInput_Listeners :=
       [{| InstancePort := listenerPort; InstanceProtocol := "tcp";
           Protocol := "tcp"; LoadBalancerPort := listenerPort |}] |}.

(** The health check of the spec: HTTP, path "/", probe port 6443, thresholds
    2 and 2, interval 30, timeout 3. *)
Definition default_health_check (elbName : string) : ConfigureHealthCheckInput :=
  {| ConfigureHealthCheckInput_HealthCheck :=
       {| HealthyThreshold := 2; Interval := 30; Target := "HTTP:6443/";
          Timeout := 3; UnhealthyThreshold := 2 |};
     ConfigureHealthCheckInput_LoadBalancerName := elbName |}.

(** A provider whose describe call is cut off below the SDK's own error
    type: the error is a plain Go error, the output the zero value. *)
Definition connection_reset : error := PlainError "read tcp: connection reset by peer".

Definition drops_describe : Provider :=
  {| reports_absent_listener := false;
     rejects_identical_listener := false;
     fault := fun r => match r with
                       | DescribeLoadBalancersRequest _ => Some connection_reset
                       | _ => None
                       end |}.

(** Provider states used in the examples: a load balancer listening on
    6443, without and with members. *)
Definition public_api_lb : gmap string LoadBalancer :=
  {[ "api-lb" := {| lb_dns := "api-lb.elb.amazonaws.com";
                    lb_subnets := ["subnet-a"; "subnet-b"];
                    lb_listeners := {[ 6443 := tcp_listener 6443 ]};
                    lb_health := None;
                    lb_members := ∅ |} ]}.

Definition joined_api_lb : gmap string LoadBalancer :=
  {[ "api-lb" := {| lb_dns := "api-lb.elb.amazonaws.com";
                    lb_subnets := ["subnet-a"; "subnet-b"];
                    lb_listeners := {[ 6443 := tcp_listener 6443 ]};
                    lb_health := None;
                    lb_members := {[ "i-0a1"; "i-0b2" ]} |} ]}.

(** A receiver whose create and health-check calls answer [r1] and [r2]
    whatever they are asked: the stub a unit test of [CreateClassicELB]
    plugs in. *)
Definition creating (r1 : response CreateLoadBalancerOutput)
    (r2 : response ConfigureHealthCheckOutput) : awsClient unit := {|
  CreateLoadBalancer := fun _ s => (r1, s);
  ConfigureHealthCheck := fun _ s => (r2, s);
  CreateLoadBalancerListeners := unreached;
  DeleteLoadBalancerListeners := unreached;
  RegisterInstancesWithLoadBalancer := unreached;
  DeregisterInstancesWithLoadBalancer := unreached;
  DescribeLoadBalancers := unreached
|}.

Definition describe_input (elbName : string) : DescribeLoadBalancersInput :=
  {| DescribeLoadBalancersInput_LoadBalancerNames := [elbName] |}.

Definition register_input (elbName : string) (instanceIds : list string)
  : RegisterInstancesWithLoadBalancerInput :=
  {| RegisterInstancesWithLoadBalancerInput_Instances := Build_Instance <$> instanceIds;
     RegisterInstancesWithLoadBalancerInput_LoadBalancerName := elbName |}.

Definition deregister_input (elbName : string) (instanceIds : list string)
  : DeregisterInstancesFromLoadBalancerInput :=
  {| DeregisterInstancesFromLoadBalancerInput_Instances := Build_Instance <$> instanceIds;
     DeregisterInstancesFromLoadBalancerInput_LoadBalancerName := elbName |}.

Definition delete_6443_input (elbName : string) : DeleteLoadBalancerListenersInput :=
  {| DeleteLoadBalancerListenersInput_LoadBalancerName := elbName;
     DeleteLoadBalancerListenersInput_LoadBalancerPorts := [6443] |}.

Definition add_listener_input (elbName : string) (listenerPort : Z)
  : CreateLoadBalancerListenersInput :=
  {| CreateLoadBalancerListenersInput_Listeners := [tcp_listener listenerPort];
     CreateLoadBalancerListenersInput_LoadBalancerName := elbName |}.

Definition throttles_describe : Provider :=
  {| reports_absent_listener := false;
     rejects_identical_listener := false;
     fault := fun r => match r with
                       | DescribeLoadBalancersRequest _ => Some throttled
                       | _ => None
                       end |}.

(** A provider that turns every request down. *)
Definition throttles_all : Provider :=
  {| reports_absent_listener := false;
     rejects_identical_listener := false;
     fault := fun _ => Some throttled |}.

(** A provider that refuses a register or deregister request naming no
    instance. *)
Definition empty_list_refused : error :=
  AwsError "ValidationError" "the instance list must not be empty".

Definition refuses_empty_list : Provider :=
  {| reports_absent_listener := false;
     rejects_identical_listener := false;
     fault := fun r =>
       match r with
       | RegisterInstancesWithLoadBalancerRequest i =>
           match RegisterInstancesWithLoadBalancerInput_Instances i with
           | [] => Some empty_list_refused
           | _ => None
           end
       | DeregisterInstancesFromLoadBalancerRequest i =>
           match DeregisterInstancesFromLoadBalancerInput_Instances i with
           | [] => Some empty_list_refused
           | _ => None
           end
       | _ => None
       end |}.

(** A load balancer in the private state: nothing listens on 6443. *)
Definition private_api_lb : gmap string LoadBalancer :=
  {[ "api-lb" := {| lb_dns := "api-lb.elb.amazonaws.com";
                    lb_subnets := ["subnet-a"; "subnet-b"];
                    lb_listeners := ∅;
                    lb_health := None;
                    lb_members := ∅ |} ]}.

(** * Properties *)


Ltac go_unfold :=
  unfold CreateClassicELB, addHealthCheck, SetLoadBalancerPrivate,
    SetLoadBalancerPublic, removeListenersFromELB, addListenersToELB,
    AddLoadBalancerInstances, RemoveInstancesFromLoadBalancer, DoesELBExist,
    call, deref, index0, mbind, Go_bind, mret, Go_ret.

(** The loop over [instanceIds] builds one [Instance] per id, in order. *)
Lemma instances_of_fmap (instanceIds : list string) :
  instances_of instanceIds = Build_Instance <$> instanceIds.
Proof.
  unfold instances_of.
  assert (G : forall acc : list Instance,
             fold_left (fun instances instance =>
                          (instances ++ [{| InstanceId := instance |}])%list)
                       instanceIds acc
             = (acc ++ (Build_Instance <$> instanceIds))%list).
  { induction instanceIds as [|x xs IH]; intros acc; simpl.
    - by rewrite app_nil_r.
    - rewrite IH. by rewrite <- app_assoc. }
  apply (G []).
Qed.

Lemma ids_of_instances_of (instanceIds : list string) :
  ids_of (instances_of instanceIds) = list_to_set instanceIds.
Proof.
  rewrite instances_of_fmap. unfold ids_of. f_equal.
  induction instanceIds as [|x xs IH]; [done|].
  cbn. f_equal. exact IH.
Qed.

(** ** What each wrapper sends and hands back, for every receiver *)

Section Forwarding.
Context {St : Type}.
Variable c : awsClient St.

Lemma removeListenersFromELB_forwards elbName s o err s' :
  DeleteLoadBalancerListeners c
    {| DeleteLoadBalancerListenersInput_LoadBalancerName := elbName;
       DeleteLoadBalancerListenersInput_LoadBalancerPorts := [6443] |} s
    = ((o, err), s') ->
  removeListenersFromELB c elbName s = (Returned err, s').
Proof. intros H. go_unfold. by rewrite H. Qed.

Lemma addListenersToELB_forwards elbName listeners s o err s' :
  CreateLoadBalancerListeners c
    {| CreateLoadBalancerListenersInput_Listeners := listeners;
       CreateLoadBalancerListenersInput_LoadBalancerName := elbName |} s
    = ((o, err), s') ->
  addListenersToELB c elbName listeners s = (Returned err, s').
Proof. intros H. go_unfold. by rewrite H. Qed.

Lemma addHealthCheck_forwards loadBalancerName protocol path port s o err s' :
  ConfigureHealthCheck c
    {| ConfigureHealthCheckInput_HealthCheck :=
         {| HealthyThreshold := 2; Interval := 30;
            Target := Sprintf_s_d_s protocol port path;
            Timeout := 3; UnhealthyThreshold := 2 |};
       ConfigureHealthCheckInput_LoadBalancerName := loadBalancerName |} s
    = ((o, err), s') ->
  addHealthCheck c loadBalancerName protocol path port s = (Returned err, s').
Proof. intros H. go_unfold. by rewrite H. Qed.

Lemma AddLoadBalancerInstances_forwards elbName instanceIds s o err s' :
  RegisterInstancesWithLoadBalancer c
    {| RegisterInstancesWithLoadBalancerInput_Instances :=
         Build_Instance <$> instanceIds;
       RegisterInstancesWithLoadBalancerInput_LoadBalancerName := elbName |} s
    = ((o, err), s') ->
  AddLoadBalancerInstances c elbName instanceIds s = (Returned err, s').
Proof. intros H. go_unfold. rewrite instances_of_fmap. by rewrite H. Qed.

Lemma RemoveInstancesFromLoadBalancer_forwards elbName instanceIds s o err s' :
  DeregisterInstancesWithLoadBalancer c
    {| DeregisterInstancesFromLoadBalancerInput_Instances :=
         Build_Instance <$> instanceIds;
       DeregisterInstancesFromLoadBalancerInput_LoadBalancerName := elbName |} s
    = ((o, err), s') ->
  RemoveInstancesFromLoadBalancer c elbName instanceIds s = (Returned err, s').
Proof. intros H. go_unfold. rewrite instances_of_fmap. by rewrite H. Qed.

(** The three outcomes of [DoesELBExist] on the answers its branches expect. *)
Lemma DoesELBExist_found elbName s dns rest s' :
  DescribeLoadBalancers c
    {| DescribeLoadBalancersInput_LoadBalancerNames := [elbName] |} s
    = ((Some {| DescribeLoadBalancersOutput_LoadBalancerDescriptions :=
                  Some {| LoadBalancerDescription_DNSName := Some dns |} :: rest |},
        None), s') ->
  DoesELBExist c elbName s = (Returned (true, dns, None), s').
Proof. intros H. go_unfold. by rewrite H. Qed.

Lemma DoesELBExist_not_found elbName s res message s' :
  DescribeLoadBalancers c
    {| DescribeLoadBalancersInput_LoadBalancerNames := [elbName] |} s
    = ((res, Some (AwsError ErrCodeAccessPointNotFoundException message)), s') ->
  DoesELBExist c elbName s = (Returned (false, "", None), s').
Proof. intros H. go_unfold. by rewrite H. Qed.

Lemma DoesELBExist_provider_fault elbName s res code message s' :
  DescribeLoadBalancers c
    {| DescribeLoadBalancersInput_LoadBalancerNames := [elbName] |} s
    = ((res, Some (AwsError code message)), s') ->
  code <> ErrCodeAccessPointNotFoundException ->
  DoesELBExist c elbName s
    = (Returned (false, "", Some (AwsError code message)), s').
Proof.
  intros H Hcode. go_unfold. rewrite H. simpl.
  by destruct (decide (code = ErrCodeAccessPointNotFoundException)).
Qed.

End Forwarding.

(** ** DoesELBExist *)

(** C10.  [DoesELBExist] guards its last line only against provider-typed
    errors.  Whenever the describe call hands back an error that is nil or
    not an [awserr.Error], the function goes on to read the result: it
    returns exactly when the result holds a first description with a DNS
    name, it panics on a nil result with a nil-pointer dereference and on an
    empty description list with an index out of range.  So it returns on
    every answer only under the assumptions that errors are provider-typed
    and successes carry a description. *)
Theorem DoesELBExist_returns_iff {St} (c : awsClient St) elbName s res err s' :
  DescribeLoadBalancers c
    {| DescribeLoadBalancersInput_LoadBalancerNames := [elbName] |} s
    = ((res, err), s') ->
  ((exists v, DoesELBExist c elbName s = (Returned v, s')) <->
   (is_Some (err ≫= as_awserr) \/
    exists dns rest,
      res = Some {| DescribeLoadBalancersOutput_LoadBalancerDescriptions :=
                      Some {| LoadBalancerDescription_DNSName := Some dns |} :: rest |}))
  /\ (err ≫= as_awserr = None -> res = None ->
      DoesELBExist c elbName s = (Panicked NilPointerDereference, s'))
  /\ (err ≫= as_awserr = None ->
      res = Some {| DescribeLoadBalancersOutput_LoadBalancerDescriptions := [] |} ->
      DoesELBExist c elbName s = (Panicked IndexOutOfRange, s')).
Proof.
  intros H.
  assert (Hfall : err ≫= as_awserr = None ->
            DoesELBExist c elbName s =
              match res with
              | None => (Panicked NilPointerDereference, s')
              | Some {| DescribeLoadBalancersOutput_LoadBalancerDescriptions := [] |} =>
                  (Panicked IndexOutOfRange, s')
              | Some {| DescribeLoadBalancersOutput_LoadBalancerDescriptions :=
                          None :: _ |} =>
                  (Panicked NilPointerDereference, s')
              | Some {| DescribeLoadBalancersOutput_LoadBalancerDescriptions :=
                          Some {| LoadBalancerDescription_DNSName := None |} :: _ |} =>
                  (Panicked NilPointerDereference, s')
              | Some {| DescribeLoadBalancersOutput_LoadBalancerDescriptions :=
                          Some {| LoadBalancerDescription_DNSName := Some dns |} :: _ |} =>
                  (Returned (true, dns, None), s')
              end).
  { intros Hu. go_unfold. rewrite H.
    destruct err as [[code msg|msg]|]; simpl in Hu; try discriminate; simpl;
      destruct res as [[[|[[[dns|]]|] rest]]|]; reflexivity. }
  split; [split|split].
  - intros [v Hv]. destruct (err ≫= as_awserr) as [code|] eqn:Ht; [left; eauto|].
    right. rewrite (Hfall eq_refl) in Hv.
    destruct res as [[[|[[[dns|]]|] rest]]|]; try discriminate. eauto.
  - intros [[code Ht]|(dns & rest & ->)].
    + destruct err as [[code' msg|msg]|]; simpl in Ht; try discriminate.
      go_unfold. rewrite H. simpl. case_decide; eauto.
    + destruct (err ≫= as_awserr) as [code|] eqn:Ht.
      * destruct err as [[code' msg|msg]|]; simpl in Ht; try discriminate.
        go_unfold. rewrite H. simpl. case_decide; eauto.
      * rewrite (Hfall eq_refl). eauto.
  - intros Hu ->. by rewrite (Hfall Hu).
  - intros Hu ->. by rewrite (Hfall Hu).
Qed.

Lemma DoesELBExist_returns_iff_witness :
  DoesELBExist (describing (None, Some (PlainError "connection reset by peer")))
               "api-lb" ()
    = (Panicked NilPointerDereference, ())
  /\ DoesELBExist
       (describing
          (Some {| DescribeLoadBalancersOutput_LoadBalancerDescriptions := [] |}, None))
       "api-lb" ()
     = (Panicked IndexOutOfRange, ()).
Proof.
  split.
  - apply (DoesELBExist_returns_iff
             (describing (None, Some (PlainError "connection reset by peer")))
             "api-lb" () None (Some (PlainError "connection reset by peer")) ());
      reflexivity.
  - apply (DoesELBExist_returns_iff
             (describing
                (Some {| DescribeLoadBalancersOutput_LoadBalancerDescriptions := [] |},
                 None))
             "api-lb" ()
             (Some {| DescribeLoadBalancersOutput_LoadBalancerDescriptions := [] |})
             None ());
      reflexivity.
Defined.

(** C1.  On a describe failure that is not provider-typed, [DoesELBExist]
    does not return [(false, "", err)]: with the SDK's zero-value output it
    panics indexing the empty description list, with a nil output it panics
    dereferencing it, and with an output that carries a description it
    reports the load balancer as found and drops the error. *)
Theorem DoesELBExist_untyped_fault_not_returned :
  DoesELBExist (remote drops_describe) "api-lb" ∅ = (Panicked IndexOutOfRange, ∅)
  /\ DoesELBExist (describing (None, Some connection_reset)) "api-lb" ()
     = (Panicked NilPointerDereference, ())
  /\ DoesELBExist
       (describing
          (Some {| DescribeLoadBalancersOutput_LoadBalancerDescriptions :=
                     [Some {| LoadBalancerDescription_DNSName :=
                                Some "api-lb.elb.amazonaws.com" |}] |},
           Some connection_reset))
       "api-lb" ()
     = (Returned (true, "api-lb.elb.amazonaws.com", None), ()).
Proof. repeat split; reflexivity. Qed.

(** ** CreateClassicELB *)

Lemma CreateClassicELB_create_fails {St} (c : awsClient St)
    elbName subnets listenerPort s o e s1 :
  CreateLoadBalancer c (create_input elbName subnets listenerPort) s
    = ((o, Some e), s1) ->
  CreateClassicELB c elbName subnets listenerPort s = (Returned ("", Some e), s1).
Proof. intros H. go_unfold. fold (create_input elbName subnets listenerPort). by rewrite H. Qed.

Lemma CreateClassicELB_health_check_fails {St} (c : awsClient St)
    elbName subnets listenerPort s o s1 o2 e s2 :
  CreateLoadBalancer c (create_input elbName subnets listenerPort) s
    = ((o, None), s1) ->
  ConfigureHealthCheck c (default_health_check elbName) s1 = ((o2, Some e), s2) ->
  CreateClassicELB c elbName subnets listenerPort s = (Returned ("", Some e), s2).
Proof.
  intros H1 H2. go_unfold. fold (create_input elbName subnets listenerPort).
  rewrite H1. change (Sprintf_s_d_s "HTTP" 6443 "/") with "HTTP:6443/".
  fold (default_health_check elbName). by rewrite H2.
Qed.

Lemma CreateClassicELB_succeeds {St} (c : awsClient St)
    elbName subnets listenerPort s dns s1 o2 s2 :
  CreateLoadBalancer c (create_input elbName subnets listenerPort) s
    = ((Some {| CreateLoadBalancerOutput_DNSName := Some dns |}, None), s1) ->
  ConfigureHealthCheck c (default_health_check elbName) s1 = ((o2, None), s2) ->
  CreateClassicELB c elbName subnets listenerPort s = (Returned (dns, None), s2).
Proof.
  intros H1 H2. go_unfold. fold (create_input elbName subnets listenerPort).
  rewrite H1. change (Sprintf_s_d_s "HTTP" 6443 "/") with "HTTP:6443/".
  fold (default_health_check elbName). by rewrite H2.
Qed.

(** C2, as the code has it.  [CreateClassicELB] hands back the remote error
    itself in both failure modes: the create call's error when creation
    fails (nothing else is sent), the health-check call's error when the
    attach fails after a successful creation.  The error is not wrapped or
    retyped. *)
Theorem CreateClassicELB_returns_remote_error {St} (c : awsClient St)
    elbName subnets listenerPort s o err s1 :
  CreateLoadBalancer c (create_input elbName subnets listenerPort) s
    = ((o, err), s1) ->
  (forall e, err = Some e ->
     CreateClassicELB c elbName subnets listenerPort s = (Returned ("", Some e), s1))
  /\ (forall o2 e s2, err = None ->
        ConfigureHealthCheck c (default_health_check elbName) s1
          = ((o2, Some e), s2) ->
        CreateClassicELB c elbName subnets listenerPort s
          = (Returned ("", Some e), s2)).
Proof.
  intros H. split.
  - intros e ->. by eapply CreateClassicELB_create_fails.
  - intros o2 e s2 -> H2. by eapply CreateClassicELB_health_check_fails.
Qed.

Lemma CreateClassicELB_returns_remote_error_witness :
  CreateClassicELB (remote throttles_create) "api-lb" ["subnet-a"; "subnet-b"] 6443 ∅
    = (Returned ("", Some throttled), ∅)
  /\ (CreateClassicELB (remote throttles_health_check)
        "api-lb" ["subnet-a"; "subnet-b"] 6443 ∅).1
     = Returned ("", Some throttled).
Proof.
  split.
  - destruct (CreateClassicELB_returns_remote_error (remote throttles_create)
                "api-lb" ["subnet-a"; "subnet-b"] 6443 ∅
                (Some {| CreateLoadBalancerOutput_DNSName := None |})
                (Some throttled) ∅) as [Hcreate _].
    + reflexivity.
    + apply Hcreate. reflexivity.
  - destruct (CreateClassicELB_returns_remote_error (remote throttles_health_check)
                "api-lb" ["subnet-a"; "subnet-b"] 6443 ∅
                (Some {| CreateLoadBalancerOutput_DNSName :=
                           Some "api-lb.elb.amazonaws.com" |})
                None
                (remote_create throttles_health_check
                   (create_input "api-lb" ["subnet-a"; "subnet-b"] 6443) ∅).2)
      as [_ Hcheck].
    + reflexivity.
    + rewrite (Hcheck (Some {| ConfigureHealthCheckOutput_HealthCheck := None |})
                      throttled
                      (remote_create throttles_health_check
                         (create_input "api-lb" ["subnet-a"; "subnet-b"] 6443) ∅).2);
        reflexivity.
Defined.

(** C2, as the spec has it, fails.  Throttle the create call in one run and
    the health-check call in the other: [CreateClassicELB] returns the same
    value both times, although the first run created nothing and the second
    left a load balancer behind.  No caller can tell the two modes apart from
    what is returned. *)
Lemma CreateClassicELB_failure_modes_coincide :
  let rejected := CreateClassicELB (remote throttles_create)
                    "api-lb" ["subnet-a"; "subnet-b"] 6443 ∅ in
  let partial := CreateClassicELB (remote throttles_health_check)
                   "api-lb" ["subnet-a"; "subnet-b"] 6443 ∅ in
  rejected.1 = Returned ("", Some throttled)
  /\ partial.1 = Returned ("", Some throttled)
  /\ rejected.2 !! "api-lb" = None
  /\ is_Some (partial.2 !! "api-lb").
Proof.
  cbv zeta. repeat split; try reflexivity.
  vm_compute. eauto.
Qed.

(** C5.  Whenever the create call succeeds, the very next request
    [CreateClassicELB] sends is a ConfigureHealthCheck for the same name with
    target HTTP:6443/, healthy and unhealthy thresholds 2, interval 30 and
    timeout 3, whatever listener port was asked for; nothing else is sent. *)
Theorem CreateClassicELB_attaches_default_health_check {St} (c : awsClient St)
    elbName subnets listenerPort s o s1 :
  CreateLoadBalancer c (create_input elbName subnets listenerPort) s
    = ((o, None), s1) ->
  (CreateClassicELB (recording c) elbName subnets listenerPort (s, [])).2
  = ((ConfigureHealthCheck c
        {| ConfigureHealthCheckInput_HealthCheck :=
             {| HealthyThreshold := 2; Interval := 30; Target := "HTTP:6443/";
                Timeout := 3; UnhealthyThreshold := 2 |};
           ConfigureHealthCheckInput_LoadBalancerName := elbName |} s1).2,
     [CreateLoadBalancerRequest (create_input elbName subnets listenerPort);
      ConfigureHealthCheckRequest
        {| ConfigureHealthCheckInput_HealthCheck :=
             {| HealthyThreshold := 2; Interval := 30; Target := "HTTP:6443/";
                Timeout := 3; UnhealthyThreshold := 2 |};
           ConfigureHealthCheckInput_LoadBalancerName := elbName |}]).
Proof.
  intros H. go_unfold. fold (create_input elbName subnets listenerPort).
  cbn [recording CreateLoadBalancer ConfigureHealthCheck]. unfold recorded.
  cbn [fst snd]. rewrite H.
  change (Sprintf_s_d_s "HTTP" 6443 "/") with "HTTP:6443/". cbn.
  destruct (ConfigureHealthCheck c _ s1) as [[o2 [e|]] s2]; cbn; [done|].
  destruct o as [[[dns|]]|]; reflexivity.
Qed.

Lemma CreateClassicELB_attaches_default_health_check_witness :
  (CreateClassicELB (recording (remote lenient))
     "api-lb" ["subnet-a"; "subnet-b"] 8443 (∅, [])).2.2
  = [CreateLoadBalancerRequest (create_input "api-lb" ["subnet-a"; "subnet-b"] 8443);
     ConfigureHealthCheckRequest
       {| ConfigureHealthCheckInput_HealthCheck :=
            {| HealthyThreshold := 2; Interval := 30; Target := "HTTP:6443/";
               Timeout := 3; UnhealthyThreshold := 2 |};
          ConfigureHealthCheckInput_LoadBalancerName := "api-lb" |}].
Proof.
  rewrite (CreateClassicELB_attaches_default_health_check (remote lenient)
             "api-lb" ["subnet-a"; "subnet-b"] 8443 ∅
             (Some {| CreateLoadBalancerOutput_DNSName :=
                        Some "api-lb.elb.amazonaws.com" |})
             (<["api-lb" :=
                  {| lb_dns := "api-lb.elb.amazonaws.com";
                     lb_subnets := ["subnet-a"; "subnet-b"];
                     lb_listeners :=
                       {[ 8443 := {| InstancePort := 8443; InstanceProtocol := "tcp";
                                     Protocol := "tcp"; LoadBalancerPort := 8443 |} ]};
                     lb_health := None;
                     lb_members := ∅ |}]> ∅)).
  - reflexivity.
  - reflexivity.
Defined.

(** ** The wrappers against the provider *)

Lemma with_listeners_same lb : with_listeners lb (lb_listeners lb) = lb.
Proof. by destruct lb. Qed.

Lemma with_members_same lb : with_members lb (lb_members lb) = lb.
Proof. by destruct lb. Qed.

Section AgainstProvider.
Variable P : Provider.
Implicit Types (s : gmap string LoadBalancer) (lb : LoadBalancer).

Lemma SetLoadBalancerPrivate_remote s elbName lb :
  fault P (DeleteLoadBalancerListenersRequest
             {| DeleteLoadBalancerListenersInput_LoadBalancerName := elbName;
                DeleteLoadBalancerListenersInput_LoadBalancerPorts := [6443] |}) = None ->
  s !! elbName = Some lb ->
  SetLoadBalancerPrivate (remote P) elbName s =
    if reports_absent_listener P && bool_decide (lb_listeners lb !! 6443 = None)
    then (Returned (Some listener_not_found), s)
    else (Returned None,
          <[elbName := with_listeners lb (delete 6443 (lb_listeners lb))]> s).
Proof.
  intros Hf Hs. go_unfold. cbn. unfold remote_delete_listeners. cbn.
  rewrite Hf, Hs. cbn. rewrite orb_false_r.
  by destruct (reports_absent_listener P && _).
Qed.

Lemma SetLoadBalancerPublic_remote s elbName lb listenerPort :
  fault P (CreateLoadBalancerListenersRequest
             {| CreateLoadBalancerListenersInput_Listeners := [tcp_listener listenerPort];
                CreateLoadBalancerListenersInput_LoadBalancerName := elbName |}) = None ->
  s !! elbName = Some lb ->
  SetLoadBalancerPublic (remote P) elbName listenerPort s =
    if listener_clash P (lb_listeners lb) (tcp_listener listenerPort)
    then (Returned (Some duplicate_listener), s)
    else (Returned None,
          <[elbName := with_listeners lb
                         (<[listenerPort := tcp_listener listenerPort]> (lb_listeners lb))]> s).
Proof.
  intros Hf Hs. go_unfold. cbn. unfold remote_create_listeners. cbn.
  fold (tcp_listener listenerPort). rewrite Hf, Hs. cbn. rewrite orb_false_r.
  by destruct (listener_clash P _ _).
Qed.

Lemma AddLoadBalancerInstances_remote s elbName lb instanceIds :
  fault P (RegisterInstancesWithLoadBalancerRequest
             {| RegisterInstancesWithLoadBalancerInput_Instances :=
                  instances_of instanceIds;
                RegisterInstancesWithLoadBalancerInput_LoadBalancerName := elbName |})
    = None ->
  s !! elbName = Some lb ->
  AddLoadBalancerInstances (remote P) elbName instanceIds s =
    (Returned None,
     <[elbName := with_members lb (lb_members lb ∪ list_to_set instanceIds)]> s).
Proof.
  intros Hf Hs. go_unfold. cbn -[instances_of ids_of].
  unfold remote_register. cbn -[instances_of ids_of].
  rewrite Hf, Hs. by rewrite ids_of_instances_of.
Qed.

Lemma RemoveInstancesFromLoadBalancer_remote s elbName lb instanceIds :
  fault P (DeregisterInstancesFromLoadBalancerRequest
             {| DeregisterInstancesFromLoadBalancerInput_Instances :=
                  instances_of instanceIds;
                DeregisterInstancesFromLoadBalancerInput_LoadBalancerName := elbName |})
    = None ->
  s !! elbName = Some lb ->
  RemoveInstancesFromLoadBalancer (remote P) elbName instanceIds s =
    (Returned None,
     <[elbName := with_members lb (lb_members lb ∖ list_to_set instanceIds)]> s).
Proof.
  intros Hf Hs. go_unfold. cbn -[instances_of ids_of].
  unfold remote_deregister. cbn -[instances_of ids_of].
  rewrite Hf, Hs. by rewrite ids_of_instances_of.
Qed.

Lemma DoesELBExist_remote s elbName lb :
  fault P (DescribeLoadBalancersRequest
             {| DescribeLoadBalancersInput_LoadBalancerNames := [elbName] |}) = None ->
  s !! elbName = Some lb ->
  DoesELBExist (remote P) elbName s = (Returned (true, lb_dns lb, None), s).
Proof.
  intros Hf Hs. go_unfold. cbn. unfold remote_describe. cbn.
  rewrite Hf. unfold first_unknown. cbn.
  rewrite decide_False by (rewrite Hs; discriminate). cbn.
  unfold describe_one. rewrite Hs. reflexivity.
Qed.

Lemma DoesELBExist_remote_absent s elbName :
  fault P (DescribeLoadBalancersRequest
             {| DescribeLoadBalancersInput_LoadBalancerNames := [elbName] |}) = None ->
  s !! elbName = None ->
  DoesELBExist (remote P) elbName s = (Returned (false, "", None), s).
Proof.
  intros Hf Hs. go_unfold. cbn. unfold remote_describe. cbn.
  rewrite Hf. unfold first_unknown. cbn.
  rewrite decide_True by done. reflexivity.
Qed.

End AgainstProvider.

Lemma listener_on_insert s elbName lb ls port :
  listener_on (<[elbName := with_listeners lb ls]> s) elbName port = ls !! port.
Proof. unfold listener_on. by rewrite lookup_insert_eq. Qed.

Lemma listener_on_lookup s elbName lb port :
  s !! elbName = Some lb -> listener_on s elbName port = lb_listeners lb !! port.
Proof. intros H. unfold listener_on. by rewrite H. Qed.

Lemma listener_clash_occupied P (m : gmap Z Listener) l :
  listener_clash P m l = true -> is_Some (m !! LoadBalancerPort l).
Proof. unfold listener_clash. destruct (m !! LoadBalancerPort l); [eauto|done]. Qed.

(** ** SetLoadBalancerPrivate *)

(** Against the provider: what two calls in a row give. *)
Lemma SetLoadBalancerPrivate_repeated P (s : gmap string LoadBalancer) elbName lb :
  (forall i, fault P (DeleteLoadBalancerListenersRequest i) = None) ->
  s !! elbName = Some lb ->
  exists err1 s1,
    SetLoadBalancerPrivate (remote P) elbName s = (Returned err1, s1)
    /\ err1 = (if reports_absent_listener P
                  && bool_decide (listener_on s elbName 6443 = None)
               then Some listener_not_found else None)
    /\ listener_on s1 elbName 6443 = None
    /\ SetLoadBalancerPrivate (remote P) elbName s1
       = (Returned (if reports_absent_listener P
                    then Some listener_not_found else None), s1).
Proof.
  intros Hf Hs.
  rewrite (SetLoadBalancerPrivate_remote P s elbName lb (Hf _) Hs).
  rewrite (listener_on_lookup s elbName lb 6443 Hs).
  destruct (reports_absent_listener P) eqn:Hr; cbn [andb].
  - case_bool_decide as Habs.
    + exists (Some listener_not_found), s. repeat split.
      * by rewrite (listener_on_lookup s elbName lb 6443 Hs).
      * rewrite (SetLoadBalancerPrivate_remote P s elbName lb (Hf _) Hs).
        rewrite Hr. cbn [andb]. by rewrite bool_decide_true.
    + eexists None, _. repeat split.
      * rewrite listener_on_insert. apply lookup_delete_eq.
      * erewrite SetLoadBalancerPrivate_remote;
          [|apply Hf|apply lookup_insert_eq].
        rewrite Hr. cbn [andb with_listeners lb_listeners].
        rewrite bool_decide_true by apply lookup_delete_eq. done.
  - eexists None, _. repeat split.
    + rewrite listener_on_insert. apply lookup_delete_eq.
    + erewrite SetLoadBalancerPrivate_remote;
        [|apply Hf|apply lookup_insert_eq].
      rewrite Hr. cbn [andb]. f_equal.
      rewrite insert_insert_eq. f_equal.
      cbn [with_listeners lb_listeners lb_dns lb_subnets lb_health lb_members].
      unfold with_listeners. f_equal.
      apply delete_id, lookup_delete_eq.
Qed.

(** For every receiver: one delete request for port 6443, its error handed
    back as it is. *)
Lemma SetLoadBalancerPrivate_recorded {St} (c : awsClient St) elbName s log :
  SetLoadBalancerPrivate (recording c) elbName (s, log)
  = (Returned (DeleteLoadBalancerListeners c (delete_6443_input elbName) s).1.2,
     ((DeleteLoadBalancerListeners c (delete_6443_input elbName) s).2,
      (log ++ [DeleteLoadBalancerListenersRequest (delete_6443_input elbName)])%list)).
Proof.
  go_unfold. fold (delete_6443_input elbName).
  cbn [recording DeleteLoadBalancerListeners]. unfold recorded. cbn [fst snd].
  by destruct (DeleteLoadBalancerListeners c _ s) as [[o err] s1].
Qed.

Lemma SetLoadBalancerPrivate_plain {St} (c : awsClient St) elbName s :
  SetLoadBalancerPrivate c elbName s
  = (Returned (DeleteLoadBalancerListeners c (delete_6443_input elbName) s).1.2,
     (DeleteLoadBalancerListeners c (delete_6443_input elbName) s).2).
Proof.
  go_unfold. fold (delete_6443_input elbName).
  by destruct (DeleteLoadBalancerListeners c _ s) as [[o err] s1].
Qed.

(** C3, as the code has it.  For every receiver, [SetLoadBalancerPrivate]
    makes one round trip, a delete request for port 6443 of [elbName], and
    returns the error of that call as it is, whatever it is: the wrapper
    turns no remote condition into success.  Against the provider, on an
    existing load balancer and with the delete request not turned down, the
    6443 listener is absent after the call and a second call changes
    nothing; the first call fails only if the provider reports the listener
    as not found, and the second call succeeds exactly when the provider
    does not report a not-found condition for an absent listener, handing
    that condition back as its error otherwise. *)
Theorem SetLoadBalancerPrivate_twice :
  (forall (St : Type) (c : awsClient St) elbName s log,
     let i := {| DeleteLoadBalancerListenersInput_LoadBalancerName := elbName;
                 DeleteLoadBalancerListenersInput_LoadBalancerPorts := [6443] |} in
     let deleted := DeleteLoadBalancerListeners c i s in
     SetLoadBalancerPrivate c elbName s = (Returned deleted.1.2, deleted.2)
     /\ SetLoadBalancerPrivate (recording c) elbName (s, log)
        = (Returned deleted.1.2,
           (deleted.2, (log ++ [DeleteLoadBalancerListenersRequest i])%list)))
  /\ (forall P (s : gmap string LoadBalancer) elbName lb,
        (forall i, fault P (DeleteLoadBalancerListenersRequest i) = None) ->
        s !! elbName = Some lb ->
        exists err1 s1,
          SetLoadBalancerPrivate (remote P) elbName s = (Returned err1, s1)
          /\ err1 = (if reports_absent_listener P
                        && bool_decide (listener_on s elbName 6443 = None)
                     then Some listener_not_found else None)
          /\ listener_on s1 elbName 6443 = None
          /\ SetLoadBalancerPrivate (remote P) elbName s1
             = (Returned (if reports_absent_listener P
                          then Some listener_not_found else None), s1)).
Proof.
  split.
  - intros St c elbName s log. cbv zeta. split.
    + apply SetLoadBalancerPrivate_plain.
    + apply SetLoadBalancerPrivate_recorded.
  - intros P s elbName lb Hf Hs. by eapply SetLoadBalancerPrivate_repeated.
Qed.

Lemma SetLoadBalancerPrivate_twice_witness :
  SetLoadBalancerPrivate (remote throttles_all) "api-lb" public_api_lb
    = (Returned (Some throttled), public_api_lb)
  /\ SetLoadBalancerPrivate (remote lenient) "ghost" public_api_lb
     = (Returned (Some (no_such_lb "ghost")), public_api_lb)
  /\ exists err1 s1,
       SetLoadBalancerPrivate (remote lenient) "api-lb" public_api_lb
         = (Returned err1, s1)
       /\ err1 = None
       /\ listener_on s1 "api-lb" 6443 = None
       /\ SetLoadBalancerPrivate (remote lenient) "api-lb" s1 = (Returned None, s1).
Proof.
  destruct SetLoadBalancerPrivate_twice as [Hforward Hremote].
  split; [|split].
  - exact (proj1 (Hforward _ (remote throttles_all) "api-lb" public_api_lb [])).
  - exact (proj1 (Hforward _ (remote lenient) "ghost" public_api_lb [])).
  - destruct (Hremote lenient public_api_lb "api-lb"
                {| lb_dns := "api-lb.elb.amazonaws.com";
                   lb_subnets := ["subnet-a"; "subnet-b"];
                   lb_listeners := {[ 6443 := tcp_listener 6443 ]};
                   lb_health := None;
                   lb_members := ∅ |})
      as (err1 & s1 & H1 & He & Habs & H2).
    + reflexivity.
    + reflexivity.
    + exists err1, s1. repeat split; assumption.
Defined.

(** C3, as the spec has it, fails.  Against a provider that reports a
    missing listener, the first [SetLoadBalancerPrivate] succeeds and removes
    the listener, and the second returns the provider's not-found condition
    as an error. *)
Lemma SetLoadBalancerPrivate_second_call_fails :
  let first := SetLoadBalancerPrivate (remote strict) "api-lb" public_api_lb in
  let second := SetLoadBalancerPrivate (remote strict) "api-lb" first.2 in
  first.1 = Returned None
  /\ listener_on first.2 "api-lb" 6443 = None
  /\ second.1 = Returned (Some listener_not_found)
  /\ as_awserr listener_not_found = Some ErrCodeListenerNotFoundException.
Proof. cbv zeta. repeat split; vm_compute; reflexivity. Qed.

(** ** SetLoadBalancerPublic *)

(** Against the provider: the answer by what the port already holds. *)
Lemma SetLoadBalancerPublic_by_port P (s : gmap string LoadBalancer)
    elbName lb listenerPort :
  (forall i, fault P (CreateLoadBalancerListenersRequest i) = None) ->
  s !! elbName = Some lb ->
  SetLoadBalancerPublic (remote P) elbName listenerPort s =
    match lb_listeners lb !! listenerPort with
    | None =>
        (Returned None,
         <[elbName := with_listeners lb
                        (<[listenerPort := tcp_listener listenerPort]>
                           (lb_listeners lb))]> s)
    | Some l =>
        if decide (l = tcp_listener listenerPort)
        then if rejects_identical_listener P
             then (Returned (Some duplicate_listener), s)
             else (Returned None, s)
        else (Returned (Some duplicate_listener), s)
    end.
Proof.
  intros Hf Hs.
  rewrite (SetLoadBalancerPublic_remote P s elbName lb listenerPort (Hf _) Hs).
  unfold listener_clash. cbn [tcp_listener LoadBalancerPort].
  destruct (lb_listeners lb !! listenerPort) as [l|] eqn:Hl; [|done].
  fold (tcp_listener listenerPort).
  destruct (decide (l = tcp_listener listenerPort)) as [->|]; [|done].
  destruct (rejects_identical_listener P); [done|].
  f_equal. rewrite (insert_id (lb_listeners lb)) by done.
  rewrite with_listeners_same. by apply insert_id.
Qed.

(** For every receiver: one create request with the single listener, its
    error handed back as it is. *)
Lemma SetLoadBalancerPublic_recorded {St} (c : awsClient St) elbName listenerPort s log :
  SetLoadBalancerPublic (recording c) elbName listenerPort (s, log)
  = (Returned (CreateLoadBalancerListeners c
                 (add_listener_input elbName listenerPort) s).1.2,
     ((CreateLoadBalancerListeners c (add_listener_input elbName listenerPort) s).2,
      (log ++ [CreateLoadBalancerListenersRequest
                 (add_listener_input elbName listenerPort)])%list)).
Proof.
  go_unfold. fold (tcp_listener listenerPort).
  fold (add_listener_input elbName listenerPort).
  cbn [recording CreateLoadBalancerListeners]. unfold recorded. cbn [fst snd].
  by destruct (CreateLoadBalancerListeners c _ s) as [[o err] s1].
Qed.

Lemma SetLoadBalancerPublic_plain {St} (c : awsClient St) elbName listenerPort s :
  SetLoadBalancerPublic c elbName listenerPort s
  = (Returned (CreateLoadBalancerListeners c
                 (add_listener_input elbName listenerPort) s).1.2,
     (CreateLoadBalancerListeners c (add_listener_input elbName listenerPort) s).2).
Proof.
  go_unfold. fold (tcp_listener listenerPort).
  fold (add_listener_input elbName listenerPort).
  by destruct (CreateLoadBalancerListeners c _ s) as [[o err] s1].
Qed.

(** C4, as the code has it.  For every receiver, [SetLoadBalancerPublic]
    makes one round trip, a create-listeners request for [elbName] with a
    single listener, TCP on both sides, whose frontend and backend port are
    both [listenerPort], and returns the error of that call as it is,
    whatever it is.  Against the provider, on an existing load balancer and
    with the request not turned down: on a free port the listener is added;
    on a port that already holds the identical listener the call succeeds,
    changing nothing, only if the provider accepts the duplicate; if the
    provider rejects it, or if the port holds a different listener, the call
    returns the provider's own duplicate-listener error. *)
Theorem SetLoadBalancerPublic_on_port :
  (forall (St : Type) (c : awsClient St) elbName listenerPort s log,
     let i := {| CreateLoadBalancerListenersInput_Listeners :=
                   [{| InstancePort := listenerPort; InstanceProtocol := "tcp";
                       Protocol := "tcp"; LoadBalancerPort := listenerPort |}];
                 CreateLoadBalancerListenersInput_LoadBalancerName := elbName |} in
     let added := CreateLoadBalancerListeners c i s in
     SetLoadBalancerPublic c elbName listenerPort s = (Returned added.1.2, added.2)
     /\ SetLoadBalancerPublic (recording c) elbName listenerPort (s, log)
        = (Returned added.1.2,
           (added.2, (log ++ [CreateLoadBalancerListenersRequest i])%list)))
  /\ (forall P (s : gmap string LoadBalancer) elbName lb listenerPort,
        (forall i, fault P (CreateLoadBalancerListenersRequest i) = None) ->
        s !! elbName = Some lb ->
        SetLoadBalancerPublic (remote P) elbName listenerPort s =
          match lb_listeners lb !! listenerPort with
          | None =>
              (Returned None,
               <[elbName := with_listeners lb
                              (<[listenerPort := tcp_listener listenerPort]>
                                 (lb_listeners lb))]> s)
          | Some l =>
              if decide (l = tcp_listener listenerPort)
              then if rejects_identical_listener P
                   then (Returned (Some duplicate_listener), s)
                   else (Returned None, s)
              else (Returned (Some duplicate_listener), s)
          end).
Proof.
  split.
  - intros St c elbName listenerPort s log. cbv zeta. split.
    + apply SetLoadBalancerPublic_plain.
    + apply SetLoadBalancerPublic_recorded.
  - intros P s elbName lb listenerPort Hf Hs. by apply SetLoadBalancerPublic_by_port.
Qed.

Lemma SetLoadBalancerPublic_on_port_witness :
  SetLoadBalancerPublic (remote throttles_all) "api-lb" 6443 public_api_lb
    = (Returned (Some throttled), public_api_lb)
  /\ SetLoadBalancerPublic (remote lenient) "ghost" 6443 public_api_lb
     = (Returned (Some (no_such_lb "ghost")), public_api_lb)
  /\ SetLoadBalancerPublic (remote lenient) "api-lb" 6443 public_api_lb
     = (Returned None, public_api_lb)
  /\ SetLoadBalancerPublic (remote lenient) "api-lb" 8443 public_api_lb
     = (Returned None,
        <["api-lb" :=
            {| lb_dns := "api-lb.elb.amazonaws.com";
               lb_subnets := ["subnet-a"; "subnet-b"];
               lb_listeners :=
                 <[8443 := tcp_listener 8443]> {[ 6443 := tcp_listener 6443 ]};
               lb_health := None;
               lb_members := ∅ |}]> public_api_lb).
Proof.
  destruct SetLoadBalancerPublic_on_port as [Hforward Hremote].
  split; [|split; [|split]].
  - exact (proj1 (Hforward _ (remote throttles_all) "api-lb" 6443 public_api_lb [])).
  - exact (proj1 (Hforward _ (remote lenient) "ghost" 6443 public_api_lb [])).
  - rewrite (Hremote lenient public_api_lb "api-lb"
               {| lb_dns := "api-lb.elb.amazonaws.com";
                  lb_subnets := ["subnet-a"; "subnet-b"];
                  lb_listeners := {[ 6443 := tcp_listener 6443 ]};
                  lb_health := None;
                  lb_members := ∅ |} 6443); reflexivity.
  - rewrite (Hremote lenient public_api_lb "api-lb"
               {| lb_dns := "api-lb.elb.amazonaws.com";
                  lb_subnets := ["subnet-a"; "subnet-b"];
                  lb_listeners := {[ 6443 := tcp_listener 6443 ]};
                  lb_health := None;
                  lb_members := ∅ |} 8443); reflexivity.
Defined.

(** C4, as the spec has it, fails.  Against a provider that rejects a
    duplicate listener, [SetLoadBalancerPublic] for the port and parameters
    the load balancer already listens on returns the provider's
    duplicate-listener error. *)
Lemma SetLoadBalancerPublic_identical_listener_fails :
  listener_on public_api_lb "api-lb" 6443 = Some (tcp_listener 6443)
  /\ SetLoadBalancerPublic (remote strict) "api-lb" 6443 public_api_lb
     = (Returned (Some duplicate_listener), public_api_lb).
Proof. split; vm_compute; reflexivity. Qed.

(** ** SetLoadBalancerPublic, then SetLoadBalancerPrivate *)

(** C6.  On an existing load balancer and a provider that turns no request
    down, [SetLoadBalancerPublic] for port 6443 followed by
    [SetLoadBalancerPrivate] ends in the private state: the second call
    succeeds, [DoesELBExist] then reports the load balancer with its DNS
    name, no listener is left on port 6443 and the listeners on every other
    port are the ones held before.  The first call succeeds unless the port
    already holds a listener the provider will not accept again; where it
    succeeds, the listener it leaves on 6443 is the TCP listener from 6443 to
    6443.  From the private state, with nothing on 6443, the first call
    succeeds and adds that listener, and the second call brings the provider
    back to exactly the state it started from. *)
Theorem SetPublic_then_SetPrivate P (s : gmap string LoadBalancer) elbName lb :
  (forall r, fault P r = None) ->
  s !! elbName = Some lb ->
  exists err1 s1 s2,
    SetLoadBalancerPublic (remote P) elbName 6443 s = (Returned err1, s1)
    /\ err1 = match lb_listeners lb !! 6443 with
              | None => None
              | Some l =>
                  if decide (l = tcp_listener 6443)
                  then if rejects_identical_listener P
                       then Some duplicate_listener else None
                  else Some duplicate_listener
              end
    /\ (err1 = None -> listener_on s1 elbName 6443 = Some (tcp_listener 6443))
    /\ is_Some (listener_on s1 elbName 6443)
    /\ SetLoadBalancerPrivate (remote P) elbName s1 = (Returned None, s2)
    /\ DoesELBExist (remote P) elbName s2 = (Returned (true, lb_dns lb, None), s2)
    /\ listener_on s2 elbName 6443 = None
    /\ (forall port, port <> 6443 ->
          listener_on s2 elbName port = listener_on s elbName port)
    /\ (listener_on s elbName 6443 = None ->
        err1 = None
        /\ listener_on s1 elbName 6443 = Some (tcp_listener 6443)
        /\ s2 = s).
Proof.
  intros Hf Hs.
  rewrite (listener_on_lookup s elbName lb 6443 Hs).
  rewrite (SetLoadBalancerPublic_remote P s elbName lb 6443 (Hf _) Hs).
  unfold listener_clash. cbn [tcp_listener LoadBalancerPort].
  fold (tcp_listener 6443).
  assert (Hgone : forall l0,
            lb_listeners lb !! 6443 = Some l0 ->
            exists s2,
              SetLoadBalancerPrivate (remote P) elbName s = (Returned None, s2)
              /\ DoesELBExist (remote P) elbName s2
                 = (Returned (true, lb_dns lb, None), s2)
              /\ listener_on s2 elbName 6443 = None
              /\ (forall port, port <> 6443 ->
                    listener_on s2 elbName port = lb_listeners lb !! port)).
  { intros l0 Hl0. eexists.
    rewrite (SetLoadBalancerPrivate_remote P s elbName lb (Hf _) Hs).
    rewrite bool_decide_false by (rewrite Hl0; discriminate).
    rewrite andb_false_r. split; [done|]. split; [|split].
    - erewrite DoesELBExist_remote; [|apply Hf|apply lookup_insert_eq]. done.
    - rewrite listener_on_insert. apply lookup_delete_eq.
    - intros port Hp. rewrite listener_on_insert. by apply lookup_delete_ne. }
  assert (Hadded :
            let s1 := <[elbName := with_listeners lb
                         (<[6443 := tcp_listener 6443]> (lb_listeners lb))]> s in
            exists s2,
              listener_on s1 elbName 6443 = Some (tcp_listener 6443)
              /\ SetLoadBalancerPrivate (remote P) elbName s1 = (Returned None, s2)
              /\ DoesELBExist (remote P) elbName s2
                 = (Returned (true, lb_dns lb, None), s2)
              /\ listener_on s2 elbName 6443 = None
              /\ (forall port, port <> 6443 ->
                    listener_on s2 elbName port = lb_listeners lb !! port)
              /\ (lb_listeners lb !! 6443 = None -> s2 = s)).
  { cbv zeta. eexists. split.
    { rewrite listener_on_insert. apply lookup_insert_eq. }
    erewrite SetLoadBalancerPrivate_remote; [|apply Hf|apply lookup_insert_eq].
    cbn [with_listeners lb_listeners].
    rewrite bool_decide_false by (rewrite lookup_insert_eq; discriminate).
    rewrite andb_false_r. split; [done|]. split; [|split; [|split]].
    - erewrite DoesELBExist_remote; [|apply Hf|apply lookup_insert_eq]. done.
    - rewrite listener_on_insert. apply lookup_delete_eq.
    - intros port Hp. rewrite listener_on_insert.
      rewrite lookup_delete_ne by done. by apply lookup_insert_ne.
    - intros Hfree. rewrite insert_insert_eq.
      rewrite (delete_insert_id (lb_listeners lb) 6443 _ Hfree).
      unfold with_listeners at 1. cbn [lb_dns lb_subnets lb_health lb_members with_listeners].
      fold (with_listeners lb (lb_listeners lb)).
      rewrite with_listeners_same. by apply insert_id. }
  cbv zeta in Hadded.
  assert (Hother : forall port, listener_on s elbName port = lb_listeners lb !! port)
    by (intros port; by apply listener_on_lookup).
  destruct (lb_listeners lb !! 6443) as [l|] eqn:Hl.
  - destruct (decide (l = tcp_listener 6443)) as [->|Hne].
    + destruct (rejects_identical_listener P).
      * destruct (Hgone _ eq_refl) as (s2 & H2 & H3 & H4 & H5).
        exists (Some duplicate_listener), s, s2. rewrite Hother, Hl.
        repeat split; eauto; try done. intros port Hp. rewrite Hother. eauto.
      * destruct Hadded as (s2 & H1 & H2 & H3 & H4 & H5 & _).
        eexists None, _, s2. rewrite H1.
        repeat split; eauto; try done. intros port Hp. rewrite Hother. eauto.
    + destruct (Hgone _ eq_refl) as (s2 & H2 & H3 & H4 & H5).
      exists (Some duplicate_listener), s, s2. rewrite Hother, Hl.
      repeat split; eauto; try done. intros port Hp. rewrite Hother. eauto.
  - destruct Hadded as (s2 & H1 & H2 & H3 & H4 & H5 & H6).
    eexists None, _, s2. rewrite H1.
    repeat split; eauto. intros port Hp. rewrite Hother. eauto.
Qed.

Lemma SetPublic_then_SetPrivate_witness :
  exists s1 s2,
    listener_on private_api_lb "api-lb" 6443 = None
    /\ SetLoadBalancerPublic (remote strict) "api-lb" 6443 private_api_lb
       = (Returned None, s1)
    /\ listener_on s1 "api-lb" 6443 = Some (tcp_listener 6443)
    /\ SetLoadBalancerPrivate (remote strict) "api-lb" s1 = (Returned None, s2)
    /\ DoesELBExist (remote strict) "api-lb" s2
       = (Returned (true, "api-lb.elb.amazonaws.com", None), s2)
    /\ listener_on s2 "api-lb" 6443 = None
    /\ s2 = private_api_lb.
Proof.
  destruct (SetPublic_then_SetPrivate strict private_api_lb "api-lb"
              {| lb_dns := "api-lb.elb.amazonaws.com";
                 lb_subnets := ["subnet-a"; "subnet-b"];
                 lb_listeners := ∅;
                 lb_health := None;
                 lb_members := ∅ |})
    as (err1 & s1 & s2 & H1 & He & _ & _ & H2 & H3 & H4 & _ & Hback).
  - reflexivity.
  - reflexivity.
  - destruct (Hback eq_refl) as (_ & Hon & Hsame).
    assert (He1 : err1 = None) by exact He. subst err1.
    exists s1, s2. repeat split; assumption || reflexivity.
Defined.

(** ** Membership *)

Lemma members_of_insert (s : gmap string LoadBalancer) elbName lb m :
  members_of (<[elbName := with_members lb m]> s) elbName = m.
Proof. unfold members_of. by rewrite lookup_insert_eq. Qed.

Lemma members_of_lookup (s : gmap string LoadBalancer) elbName lb :
  s !! elbName = Some lb -> members_of s elbName = lb_members lb.
Proof. intros H. unfold members_of. by rewrite H. Qed.

Lemma with_members_twice lb m1 m2 :
  with_members (with_members lb m1) m2 = with_members lb m2.
Proof. reflexivity. Qed.

(** C7.  Registering the same instance ids a second time changes nothing:
    the second [AddLoadBalancerInstances] returns what the first returned and
    leaves the provider in the state the first left it in.  When the call
    succeeds the membership set is the old one joined with the ids given, so
    ids that were members stay members and duplicates count once; when it
    fails the membership set is the old one. *)
Theorem AddLoadBalancerInstances_idempotent P (s : gmap string LoadBalancer)
    elbName instanceIds :
  let once := AddLoadBalancerInstances (remote P) elbName instanceIds s in
  let twice := AddLoadBalancerInstances (remote P) elbName instanceIds once.2 in
  twice = once
  /\ members_of s elbName ⊆ members_of once.2 elbName
  /\ members_of once.2 elbName =
     match once.1 with
     | Returned None => members_of s elbName ∪ list_to_set instanceIds
     | _ => members_of s elbName
     end.
Proof.
  cbv zeta.
  destruct (fault P (RegisterInstancesWithLoadBalancerRequest
             {| RegisterInstancesWithLoadBalancerInput_Instances :=
                  instances_of instanceIds;
                RegisterInstancesWithLoadBalancerInput_LoadBalancerName := elbName |}))
    as [e|] eqn:Hf.
  - assert (Hrun : forall s', AddLoadBalancerInstances (remote P) elbName instanceIds s'
                              = (Returned (Some e), s')).
    { intros s'. go_unfold. cbn -[instances_of ids_of].
      unfold remote_register. cbn -[instances_of ids_of]. by rewrite Hf. }
    rewrite !Hrun. cbn [fst snd]. rewrite ?Hrun. by repeat split.
  - destruct (s !! elbName) as [lb|] eqn:Hs.
    + rewrite (AddLoadBalancerInstances_remote P s elbName lb instanceIds Hf Hs).
      cbn [fst snd]. split; [|split].
      * erewrite AddLoadBalancerInstances_remote; [|exact Hf|apply lookup_insert_eq].
        rewrite insert_insert_eq, with_members_twice. do 3 f_equal.
        cbn [with_members lb_members].
        by rewrite <- (assoc_L (∪)), (idemp_L (∪)).
      * rewrite members_of_insert, (members_of_lookup s elbName lb Hs).
        apply union_subseteq_l.
      * by rewrite members_of_insert, (members_of_lookup s elbName lb Hs).
    + assert (Hrun : AddLoadBalancerInstances (remote P) elbName instanceIds s
                     = (Returned (Some (no_such_lb elbName)), s)).
      { go_unfold. cbn -[instances_of ids_of].
        unfold remote_register. cbn -[instances_of ids_of]. by rewrite Hf, Hs. }
      rewrite !Hrun. cbn [fst snd]. rewrite ?Hrun. by repeat split.
Qed.

(** Against the provider: requests that leave the membership as it was. *)
Lemma membership_no_ops_on_remote P (s : gmap string LoadBalancer)
    elbName lb instanceIds :
  (forall r, fault P r = None) ->
  s !! elbName = Some lb ->
  (forall x, x ∈ instanceIds -> x ∉ lb_members lb) ->
  AddLoadBalancerInstances (remote P) elbName [] s = (Returned None, s)
  /\ RemoveInstancesFromLoadBalancer (remote P) elbName [] s = (Returned None, s)
  /\ RemoveInstancesFromLoadBalancer (remote P) elbName instanceIds s
     = (Returned None, s).
Proof.
  intros Hf Hs Hout.
  assert (Hsame : forall m, m = lb_members lb ->
                    <[elbName := with_members lb m]> s = s).
  { intros m ->. rewrite with_members_same. by apply insert_id. }
  split; [|split].
  - rewrite (AddLoadBalancerInstances_remote P s elbName lb [] (Hf _) Hs).
    f_equal. apply Hsame. cbn [list_to_set foldr]. apply (right_id_L ∅ (∪)).
  - rewrite (RemoveInstancesFromLoadBalancer_remote P s elbName lb [] (Hf _) Hs).
    f_equal. apply Hsame. cbn [list_to_set foldr]. apply difference_empty_L.
  - rewrite (RemoveInstancesFromLoadBalancer_remote P s elbName lb instanceIds
               (Hf _) Hs).
    f_equal. apply Hsame. apply difference_disjoint_L, elem_of_disjoint.
    intros x Hin Hx. apply elem_of_list_to_set in Hx. by apply (Hout x).
Qed.

(** For every receiver: one register, respectively deregister, request
    with the ids as given, its error handed back as it is. *)
Lemma AddLoadBalancerInstances_recorded {St} (c : awsClient St)
    elbName instanceIds s log :
  AddLoadBalancerInstances (recording c) elbName instanceIds (s, log)
  = (Returned (RegisterInstancesWithLoadBalancer c
                 (register_input elbName instanceIds) s).1.2,
     ((RegisterInstancesWithLoadBalancer c (register_input elbName instanceIds) s).2,
      (log ++ [RegisterInstancesWithLoadBalancerRequest
                 (register_input elbName instanceIds)])%list)).
Proof.
  go_unfold. rewrite instances_of_fmap. fold (register_input elbName instanceIds).
  cbn [recording RegisterInstancesWithLoadBalancer]. unfold recorded. cbn [fst snd].
  by destruct (RegisterInstancesWithLoadBalancer c _ s) as [[o err] s1].
Qed.

Lemma RemoveInstancesFromLoadBalancer_recorded {St} (c : awsClient St)
    elbName instanceIds s log :
  RemoveInstancesFromLoadBalancer (recording c) elbName instanceIds (s, log)
  = (Returned (DeregisterInstancesWithLoadBalancer c
                 (deregister_input elbName instanceIds) s).1.2,
     ((DeregisterInstancesWithLoadBalancer c
         (deregister_input elbName instanceIds) s).2,
      (log ++ [DeregisterInstancesFromLoadBalancerRequest
                 (deregister_input elbName instanceIds)])%list)).
Proof.
  go_unfold. rewrite instances_of_fmap. fold (deregister_input elbName instanceIds).
  cbn [recording DeregisterInstancesWithLoadBalancer]. unfold recorded. cbn [fst snd].
  by destruct (DeregisterInstancesWithLoadBalancer c _ s) as [[o err] s1].
Qed.

Lemma AddLoadBalancerInstances_plain {St} (c : awsClient St) elbName instanceIds s :
  AddLoadBalancerInstances c elbName instanceIds s
  = (Returned (RegisterInstancesWithLoadBalancer c
                 (register_input elbName instanceIds) s).1.2,
     (RegisterInstancesWithLoadBalancer c (register_input elbName instanceIds) s).2).
Proof.
  go_unfold. rewrite instances_of_fmap. fold (register_input elbName instanceIds).
  by destruct (RegisterInstancesWithLoadBalancer c _ s) as [[o err] s1].
Qed.

Lemma RemoveInstancesFromLoadBalancer_plain {St} (c : awsClient St)
    elbName instanceIds s :
  RemoveInstancesFromLoadBalancer c elbName instanceIds s
  = (Returned (DeregisterInstancesWithLoadBalancer c
                 (deregister_input elbName instanceIds) s).1.2,
     (DeregisterInstancesWithLoadBalancer c
        (deregister_input elbName instanceIds) s).2).
Proof.
  go_unfold. rewrite instances_of_fmap. fold (deregister_input elbName instanceIds).
  by destruct (DeregisterInstancesWithLoadBalancer c _ s) as [[o err] s1].
Qed.

(** C8, as the code has it.  [AddLoadBalancerInstances] and
    [RemoveInstancesFromLoadBalancer] have no case for an empty list: for
    every receiver and every list of ids, the empty one included, each makes
    one round trip, a register, respectively deregister, request carrying
    exactly the ids given (none for the empty list), and returns the error
    of that call as it is.  Whether an empty list, or ids that are not
    members, succeed is therefore the provider's answer.  Against the
    provider, on an existing load balancer and with no request turned down,
    both calls with no ids, and the removal of ids none of which is a
    member, succeed and leave the provider's state as it was. *)
Theorem empty_and_absent_membership_changes :
  (forall (St : Type) (c : awsClient St) elbName instanceIds s log,
     let r := {| RegisterInstancesWithLoadBalancerInput_Instances :=
                   Build_Instance <$> instanceIds;
                 RegisterInstancesWithLoadBalancerInput_LoadBalancerName := elbName |} in
     let d := {| DeregisterInstancesFromLoadBalancerInput_Instances :=
                   Build_Instance <$> instanceIds;
                 DeregisterInstancesFromLoadBalancerInput_LoadBalancerName := elbName |} in
     let registered := RegisterInstancesWithLoadBalancer c r s in
     let deregistered := DeregisterInstancesWithLoadBalancer c d s in
     AddLoadBalancerInstances c elbName instanceIds s
       = (Returned registered.1.2, registered.2)
     /\ AddLoadBalancerInstances (recording c) elbName instanceIds (s, log)
        = (Returned registered.1.2,
           (registered.2,
            (log ++ [RegisterInstancesWithLoadBalancerRequest r])%list))
     /\ RemoveInstancesFromLoadBalancer c elbName instanceIds s
        = (Returned deregistered.1.2, deregistered.2)
     /\ RemoveInstancesFromLoadBalancer (recording c) elbName instanceIds (s, log)
        = (Returned deregistered.1.2,
           (deregistered.2,
            (log ++ [DeregisterInstancesFromLoadBalancerRequest d])%list))
     /\ (instanceIds = [] ->
         RegisterInstancesWithLoadBalancerInput_Instances r = []
         /\ DeregisterInstancesFromLoadBalancerInput_Instances d = []))
  /\ (forall P (s : gmap string LoadBalancer) elbName lb instanceIds,
        (forall r, fault P r = None) ->
        s !! elbName = Some lb ->
        (forall x, x ∈ instanceIds -> x ∉ lb_members lb) ->
        AddLoadBalancerInstances (remote P) elbName [] s = (Returned None, s)
        /\ RemoveInstancesFromLoadBalancer (remote P) elbName [] s = (Returned None, s)
        /\ RemoveInstancesFromLoadBalancer (remote P) elbName instanceIds s
           = (Returned None, s)).
Proof.
  split.
  - intros St c elbName instanceIds s log. cbv zeta.
    split; [apply AddLoadBalancerInstances_plain|].
    split; [apply AddLoadBalancerInstances_recorded|].
    split; [apply RemoveInstancesFromLoadBalancer_plain|].
    split; [apply RemoveInstancesFromLoadBalancer_recorded|].
    by intros ->.
  - intros P s elbName lb instanceIds Hf Hs Hout.
    by apply (membership_no_ops_on_remote P s elbName lb instanceIds).
Qed.

Lemma empty_and_absent_membership_changes_witness :
  AddLoadBalancerInstances (remote throttles_all) "api-lb" [] joined_api_lb
    = (Returned (Some throttled), joined_api_lb)
  /\ AddLoadBalancerInstances (remote lenient) "api-lb" [] joined_api_lb
     = (Returned None, joined_api_lb)
  /\ RemoveInstancesFromLoadBalancer (remote lenient) "api-lb" [] joined_api_lb
     = (Returned None, joined_api_lb)
  /\ RemoveInstancesFromLoadBalancer (remote lenient) "api-lb" ["i-0c3"] joined_api_lb
     = (Returned None, joined_api_lb).
Proof.
  destruct empty_and_absent_membership_changes as [Hforward Hremote].
  split.
  - exact (proj1 (Hforward _ (remote throttles_all) "api-lb" [] joined_api_lb [])).
  - apply (Hremote lenient joined_api_lb "api-lb"
             {| lb_dns := "api-lb.elb.amazonaws.com";
                lb_subnets := ["subnet-a"; "subnet-b"];
                lb_listeners := {[ 6443 := tcp_listener 6443 ]};
                lb_health := None;
                lb_members := {[ "i-0a1"; "i-0b2" ]} |} ["i-0c3"]).
    + reflexivity.
    + reflexivity.
    + intros x Hx. apply list_elem_of_singleton in Hx as ->.
      apply not_elem_of_union. split; apply not_elem_of_singleton; discriminate.
Defined.

(** C8, as the spec has it, fails.  Against a provider that refuses a
    request naming no instance, [AddLoadBalancerInstances] and
    [RemoveInstancesFromLoadBalancer] with an empty list send that request
    all the same and return the provider's refusal, on a load balancer that
    exists. *)
Lemma membership_empty_list_refused :
  is_Some (joined_api_lb !! "api-lb")
  /\ AddLoadBalancerInstances (recording (remote refuses_empty_list)) "api-lb" []
       (joined_api_lb, [])
     = (Returned (Some empty_list_refused),
        (joined_api_lb,
         [RegisterInstancesWithLoadBalancerRequest
            {| RegisterInstancesWithLoadBalancerInput_Instances := [];
               RegisterInstancesWithLoadBalancerInput_LoadBalancerName := "api-lb" |}]))
  /\ RemoveInstancesFromLoadBalancer (recording (remote refuses_empty_list)) "api-lb" []
       (joined_api_lb, [])
     = (Returned (Some empty_list_refused),
        (joined_api_lb,
         [DeregisterInstancesFromLoadBalancerRequest
            {| DeregisterInstancesFromLoadBalancerInput_Instances := [];
               DeregisterInstancesFromLoadBalancerInput_LoadBalancerName := "api-lb" |}])).
Proof. split; [vm_compute; eauto|split; reflexivity]. Qed.

(** ** A health check that fails after the creation *)

(** C9.  When the name is free, the provider accepts the create request and
    turns the health-check request down, [CreateClassicELB] returns the
    health-check error having sent those two requests and nothing else, no
    delete among them; the load balancer stays, and [DoesELBExist] then
    reports it present under its DNS name. *)
Theorem CreateClassicELB_partial_creation_stays P (s : gmap string LoadBalancer)
    elbName subnets listenerPort e :
  s !! elbName = None ->
  fault P (CreateLoadBalancerRequest (create_input elbName subnets listenerPort))
    = None ->
  fault P (ConfigureHealthCheckRequest (default_health_check elbName)) = Some e ->
  fault P (DescribeLoadBalancersRequest
             {| DescribeLoadBalancersInput_LoadBalancerNames := [elbName] |}) = None ->
  exists s1,
    CreateClassicELB (recording (remote P)) elbName subnets listenerPort (s, [])
      = (Returned ("", Some e),
         (s1, [CreateLoadBalancerRequest (create_input elbName subnets listenerPort);
               ConfigureHealthCheckRequest (default_health_check elbName)]))
    /\ is_Some (s1 !! elbName)
    /\ DoesELBExist (remote P) elbName s1
       = (Returned (true, dns_for elbName, None), s1).
Proof.
  intros Hfree Hc Hh Hd. eexists. split; [|split].
  - eapply CreateClassicELB_health_check_fails.
    + cbn [recording CreateLoadBalancer]. unfold recorded. cbn [fst snd remote CreateLoadBalancer].
      unfold remote_create. rewrite Hc. cbn [create_input CreateLoadBalancerInput_LoadBalancerName].
      rewrite Hfree. reflexivity.
    + cbn [recording ConfigureHealthCheck]. unfold recorded. cbn [fst snd remote ConfigureHealthCheck].
      unfold remote_configure_health_check. rewrite Hh. reflexivity.
  - rewrite lookup_insert_eq. eauto.
  - erewrite DoesELBExist_remote; [|exact Hd|apply lookup_insert_eq]. done.
Qed.

Lemma CreateClassicELB_partial_creation_stays_witness :
  exists s1,
    CreateClassicELB (recording (remote throttles_health_check))
      "api-lb" ["subnet-a"; "subnet-b"] 6443 (∅, [])
      = (Returned ("", Some throttled),
         (s1, [CreateLoadBalancerRequest
                 (create_input "api-lb" ["subnet-a"; "subnet-b"] 6443);
               ConfigureHealthCheckRequest (default_health_check "api-lb")]))
    /\ is_Some (s1 !! "api-lb")
    /\ DoesELBExist (remote throttles_health_check) "api-lb" s1
       = (Returned (true, "api-lb.elb.amazonaws.com", None), s1).
Proof.
  apply (CreateClassicELB_partial_creation_stays throttles_health_check ∅
           "api-lb" ["subnet-a"; "subnet-b"] 6443 throttled); reflexivity.
Defined.

(** * Further properties of the file *)

(** ** DoesELBExist on the answers it classifies *)

(** X1.  On a describe answer without error whose first description carries
    a DNS name, [DoesELBExist] reports the load balancer found with that
    name, whatever follows in the list; on a provider-typed error it reports
    it absent, with no error when the code is LoadBalancerNotFound (whatever
    the message and the output) and with the error itself for every other
    code. *)
Theorem DoesELBExist_three_outcomes {St} (c : awsClient St) elbName s res err s' :
  DescribeLoadBalancers c (describe_input elbName) s = ((res, err), s') ->
  (forall dns rest,
     err = None ->
     res = Some {| DescribeLoadBalancersOutput_LoadBalancerDescriptions :=
                     Some {| LoadBalancerDescription_DNSName := Some dns |} :: rest |} ->
     DoesELBExist c elbName s = (Returned (true, dns, None), s'))
  /\ (forall code message,
        err = Some (AwsError code message) ->
        DoesELBExist c elbName s =
          (Returned (false, "",
                     if decide (code = ErrCodeAccessPointNotFoundException)
                     then None else Some (AwsError code message)), s')).
Proof.
  intros H. split.
  - intros dns rest -> ->. by eapply DoesELBExist_found.
  - intros code message ->. go_unfold. fold (describe_input elbName).
    rewrite H. simpl. by case_decide.
Qed.

Lemma DoesELBExist_three_outcomes_witness :
  DoesELBExist (remote lenient) "api-lb" public_api_lb
    = (Returned (true, "api-lb.elb.amazonaws.com", None), public_api_lb)
  /\ DoesELBExist (remote lenient) "api-lb" ∅ = (Returned (false, "", None), ∅)
  /\ DoesELBExist (remote throttles_describe) "api-lb" public_api_lb
     = (Returned (false, "", Some throttled), public_api_lb).
Proof.
  split; [|split].
  - destruct (DoesELBExist_three_outcomes (remote lenient) "api-lb" public_api_lb
                (Some {| DescribeLoadBalancersOutput_LoadBalancerDescriptions :=
                           [Some {| LoadBalancerDescription_DNSName :=
                                      Some "api-lb.elb.amazonaws.com" |}] |})
                None public_api_lb) as [Hfound _]; [reflexivity|].
    exact (Hfound "api-lb.elb.amazonaws.com" [] eq_refl eq_refl).
  - destruct (DoesELBExist_three_outcomes (remote lenient) "api-lb" ∅
                (Some {| DescribeLoadBalancersOutput_LoadBalancerDescriptions := [] |})
                (Some (no_such_lb "api-lb")) ∅) as [_ Htyped]; [reflexivity|].
    by rewrite (Htyped _ _ eq_refl).
  - destruct (DoesELBExist_three_outcomes (remote throttles_describe) "api-lb"
                public_api_lb
                (Some {| DescribeLoadBalancersOutput_LoadBalancerDescriptions := [] |})
                (Some throttled) public_api_lb) as [_ Htyped]; [reflexivity|].
    by rewrite (Htyped _ _ eq_refl).
Defined.

(** X2.  Whatever the receiver, a value [DoesELBExist] returns has one of
    three shapes.  Found comes with no error and with the DNS name of the
    first description of the answer.  Absent with no error comes only from a
    provider-typed LoadBalancerNotFound.  An error is always the one the
    describe call gave, provider-typed with another code, and comes with
    absent and the empty name.  The provider is left as the describe call
    left it. *)
Theorem DoesELBExist_result_shape {St} (c : awsClient St) elbName s found dns err s' :
  DoesELBExist c elbName s = (Returned (found, dns, err), s') ->
  let answer := DescribeLoadBalancers c (describe_input elbName) s in
  s' = answer.2
  /\ (found = true ->
      err = None
      /\ exists rest,
           answer.1.1 =
             Some {| DescribeLoadBalancersOutput_LoadBalancerDescriptions :=
                       Some {| LoadBalancerDescription_DNSName := Some dns |} :: rest |})
  /\ (found = false ->
      dns = ""
      /\ exists code message,
           answer.1.2 = Some (AwsError code message)
           /\ err = (if decide (code = ErrCodeAccessPointNotFoundException)
                     then None else Some (AwsError code message))).
Proof.
  cbv zeta. go_unfold. fold (describe_input elbName).
  destruct (DescribeLoadBalancers c (describe_input elbName) s)
    as [[res [[code message|message]|]] s1]; cbn [fst snd as_awserr].
  - case_decide; intros [= <- <- <- <-]; (split; [done|split; [done|]]);
      intros _; (split; [done|]); exists code, message; by case_decide.
  - destruct res as [[[|[[[d|]]|] rest]]|]; intros [= <- <- <- <-].
    split; [done|]. split; [eauto|done].
  - destruct res as [[[|[[[d|]]|] rest]]|]; intros [= <- <- <- <-].
    split; [done|]. split; [eauto|done].
Qed.

Lemma DoesELBExist_result_shape_witness :
  public_api_lb = (DescribeLoadBalancers (remote lenient) (describe_input "api-lb")
                     public_api_lb).2.
Proof.
  apply (DoesELBExist_result_shape (remote lenient) "api-lb" public_api_lb
           true "api-lb.elb.amazonaws.com" None public_api_lb).
  reflexivity.
Defined.

(** X3.  Every call of [DoesELBExist] makes exactly one round trip, a
    describe request naming [elbName] alone, whether it then returns or
    panics; it sends no request that changes the load balancer. *)
Theorem DoesELBExist_single_describe {St} (c : awsClient St) elbName s log :
  (DoesELBExist (recording c) elbName (s, log)).2
  = ((DescribeLoadBalancers c (describe_input elbName) s).2,
     (log ++ [DescribeLoadBalancersRequest (describe_input elbName)])%list).
Proof.
  go_unfold. fold (describe_input elbName).
  cbn [recording DescribeLoadBalancers]. unfold recorded. cbn [fst snd].
  destruct (DescribeLoadBalancers c (describe_input elbName) s)
    as [[res [[code message|message]|]] s1]; cbn [fst snd as_awserr].
  - by case_decide.
  - by destruct res as [[[|[[[d|]]|] rest]]|].
  - by destruct res as [[[|[[[d|]]|] rest]]|].
Qed.

(** ** CreateClassicELB, path by path *)

(** X4.  When the create call fails, [CreateClassicELB] stops there: the
    create request is the only one it sends, no health check is configured,
    and the provider is left as the create call left it. *)
Theorem CreateClassicELB_create_failure_stops {St} (c : awsClient St)
    elbName subnets listenerPort s log o e s1 :
  CreateLoadBalancer c (create_input elbName subnets listenerPort) s
    = ((o, Some e), s1) ->
  CreateClassicELB (recording c) elbName subnets listenerPort (s, log)
  = (Returned ("", Some e),
     (s1, (log ++ [CreateLoadBalancerRequest
                     (create_input elbName subnets listenerPort)])%list)).
Proof.
  intros H. eapply CreateClassicELB_create_fails.
  cbn [recording CreateLoadBalancer]. unfold recorded. cbn [fst snd].
  rewrite H. reflexivity.
Qed.

Lemma CreateClassicELB_create_failure_stops_witness :
  CreateClassicELB (recording (remote lenient)) "api-lb" ["subnet-a"] 6443
    (public_api_lb, [])
  = (Returned ("", Some name_taken),
     (public_api_lb, [CreateLoadBalancerRequest (create_input "api-lb" ["subnet-a"] 6443)])).
Proof.
  apply (CreateClassicELB_create_failure_stops (remote lenient)
           "api-lb" ["subnet-a"] 6443 public_api_lb []
           (Some {| CreateLoadBalancerOutput_DNSName := None |})).
  reflexivity.
Defined.

(** X5.  When both calls succeed, [CreateClassicELB] returns the DNS name of
    the create output with a nil error; when the create output is nil or
    carries no DNS name it panics on the last line instead, after the load
    balancer was created and its health check configured. *)
Theorem CreateClassicELB_after_both_calls {St} (c : awsClient St)
    elbName subnets listenerPort s o s1 o2 s2 :
  CreateLoadBalancer c (create_input elbName subnets listenerPort) s
    = ((o, None), s1) ->
  ConfigureHealthCheck c (default_health_check elbName) s1 = ((o2, None), s2) ->
  CreateClassicELB c elbName subnets listenerPort s =
    match o with
    | Some {| CreateLoadBalancerOutput_DNSName := Some dns |} =>
        (Returned (dns, None), s2)
    | _ => (Panicked NilPointerDereference, s2)
    end.
Proof.
  intros H1 H2. go_unfold. fold (create_input elbName subnets listenerPort).
  rewrite H1. change (Sprintf_s_d_s "HTTP" 6443 "/") with "HTTP:6443/".
  fold (default_health_check elbName). rewrite H2.
  by destruct o as [[[dns|]]|].
Qed.

Lemma CreateClassicELB_after_both_calls_witness :
  CreateClassicELB
    (creating (Some {| CreateLoadBalancerOutput_DNSName := None |}, None)
              (Some {| ConfigureHealthCheckOutput_HealthCheck := None |}, None))
    "api-lb" ["subnet-a"] 6443 ()
  = (Panicked NilPointerDereference, ())
  /\ CreateClassicELB (remote lenient) "api-lb" ["subnet-a"] 6443 ∅
     = (Returned ("api-lb.elb.amazonaws.com", None),
        (ConfigureHealthCheck (remote lenient) (default_health_check "api-lb")
           (CreateLoadBalancer (remote lenient)
              (create_input "api-lb" ["subnet-a"] 6443) ∅).2).2).
Proof.
  split.
  - apply (CreateClassicELB_after_both_calls
             (creating (Some {| CreateLoadBalancerOutput_DNSName := None |}, None)
                       (Some {| ConfigureHealthCheckOutput_HealthCheck := None |}, None))
             "api-lb" ["subnet-a"] 6443 ()
             (Some {| CreateLoadBalancerOutput_DNSName := None |}) ()
             (Some {| ConfigureHealthCheckOutput_HealthCheck := None |}) ());
      reflexivity.
  - apply (CreateClassicELB_after_both_calls (remote lenient)
             "api-lb" ["subnet-a"] 6443 ∅
             (Some {| CreateLoadBalancerOutput_DNSName :=
                        Some "api-lb.elb.amazonaws.com" |})
             (CreateLoadBalancer (remote lenient)
                (create_input "api-lb" ["subnet-a"] 6443) ∅).2
             (Some {| ConfigureHealthCheckOutput_HealthCheck :=
                        Some {| HealthyThreshold := 2; Interval := 30;
                                Target := "HTTP:6443/"; Timeout := 3;
                                UnhealthyThreshold := 2 |} |})
             (ConfigureHealthCheck (remote lenient) (default_health_check "api-lb")
                (CreateLoadBalancer (remote lenient)
                   (create_input "api-lb" ["subnet-a"] 6443) ∅).2).2);
      reflexivity.
Defined.

(** X6.  Whatever the receiver, a value [CreateClassicELB] returns is either
    an error with the empty DNS name, the error being the one the create
    call or, after a successful create, the health-check call gave; or a nil
    error with the DNS name of the create output, both calls having
    succeeded.  A DNS name and an error never come together. *)
Theorem CreateClassicELB_result_shape {St} (c : awsClient St)
    elbName subnets listenerPort s dns err s' :
  CreateClassicELB c elbName subnets listenerPort s = (Returned (dns, err), s') ->
  let created := CreateLoadBalancer c (create_input elbName subnets listenerPort) s in
  let checked := ConfigureHealthCheck c (default_health_check elbName) created.2 in
  match err with
  | Some e =>
      dns = ""
      /\ ((created.1.2 = Some e /\ s' = created.2)
          \/ (created.1.2 = None /\ checked.1.2 = Some e /\ s' = checked.2))
  | None =>
      created.1 = (Some {| CreateLoadBalancerOutput_DNSName := Some dns |}, None)
      /\ checked.1.2 = None /\ s' = checked.2
  end.
Proof.
  cbv zeta. go_unfold. fold (create_input elbName subnets listenerPort).
  change (Sprintf_s_d_s "HTTP" 6443 "/") with "HTTP:6443/".
  fold (default_health_check elbName).
  destruct (CreateLoadBalancer c (create_input elbName subnets listenerPort) s)
    as [[o [e1|]] s1]; cbn [fst snd].
  - intros [= <- <- <-]. eauto.
  - destruct (ConfigureHealthCheck c (default_health_check elbName) s1)
      as [[o2 [e2|]] s2]; cbn [fst snd].
    + intros [= <- <- <-]. eauto 7.
    + destruct o as [[[d|]]|]; intros [= <- <- <-]. done.
Qed.

Lemma CreateClassicELB_result_shape_witness :
  (CreateLoadBalancer (remote lenient) (create_input "api-lb" ["subnet-a"] 6443) ∅).1
  = (Some {| CreateLoadBalancerOutput_DNSName := Some "api-lb.elb.amazonaws.com" |},
     None).
Proof.
  apply (CreateClassicELB_result_shape (remote lenient) "api-lb" ["subnet-a"] 6443 ∅
           "api-lb.elb.amazonaws.com" None
           (CreateClassicELB (remote lenient) "api-lb" ["subnet-a"] 6443 ∅).2).
  reflexivity.
Defined.

(** ** The membership calls *)

(** X7.  [AddLoadBalancerInstances] and [RemoveInstancesFromLoadBalancer]
    each make exactly one round trip, whatever the ids: a register,
    respectively deregister, request for [elbName] carrying one instance per
    id in the order given, duplicates included and also when there is no id.  They return the error of that call as it is and never
    panic. *)
Theorem membership_calls_forward {St} (c : awsClient St) elbName instanceIds s log :
  let registered :=
    RegisterInstancesWithLoadBalancer c (register_input elbName instanceIds) s in
  let deregistered :=
    DeregisterInstancesWithLoadBalancer c (deregister_input elbName instanceIds) s in
  AddLoadBalancerInstances (recording c) elbName instanceIds (s, log)
  = (Returned registered.1.2,
     (registered.2,
      (log ++ [RegisterInstancesWithLoadBalancerRequest
                 (register_input elbName instanceIds)])%list))
  /\ RemoveInstancesFromLoadBalancer (recording c) elbName instanceIds (s, log)
     = (Returned deregistered.1.2,
        (deregistered.2,
         (log ++ [DeregisterInstancesFromLoadBalancerRequest
                    (deregister_input elbName instanceIds)])%list)).
Proof.
  cbv zeta. split.
  - go_unfold. rewrite instances_of_fmap. fold (register_input elbName instanceIds).
    cbn [recording RegisterInstancesWithLoadBalancer]. unfold recorded. cbn [fst snd].
    by destruct (RegisterInstancesWithLoadBalancer c _ s) as [[o err] s1].
  - go_unfold. rewrite instances_of_fmap. fold (deregister_input elbName instanceIds).
    cbn [recording DeregisterInstancesWithLoadBalancer]. unfold recorded. cbn [fst snd].
    by destruct (DeregisterInstancesWithLoadBalancer c _ s) as [[o err] s1].
Qed.

(** ** Not found: an answer for one function, an error for the others *)

(** X8.  When the provider answers a request with its LoadBalancerNotFound
    error, [DoesELBExist] reports the load balancer absent with a nil error,
    whereas [SetLoadBalancerPrivate], [SetLoadBalancerPublic],
    [AddLoadBalancerInstances] and [RemoveInstancesFromLoadBalancer] return
    that error to the caller. *)
Theorem not_found_is_an_error_for_mutations {St} (c : awsClient St)
    elbName listenerPort instanceIds s message
    r0 s0 r1 s1 r2 s2 r3 s3 r4 s4 :
  let e := AwsError ErrCodeAccessPointNotFoundException message in
  DescribeLoadBalancers c (describe_input elbName) s = ((r0, Some e), s0) ->
  DeleteLoadBalancerListeners c (delete_6443_input elbName) s = ((r1, Some e), s1) ->
  CreateLoadBalancerListeners c (add_listener_input elbName listenerPort) s
    = ((r2, Some e), s2) ->
  RegisterInstancesWithLoadBalancer c (register_input elbName instanceIds) s
    = ((r3, Some e), s3) ->
  DeregisterInstancesWithLoadBalancer c (deregister_input elbName instanceIds) s
    = ((r4, Some e), s4) ->
  DoesELBExist c elbName s = (Returned (false, "", None), s0)
  /\ SetLoadBalancerPrivate c elbName s = (Returned (Some e), s1)
  /\ SetLoadBalancerPublic c elbName listenerPort s = (Returned (Some e), s2)
  /\ AddLoadBalancerInstances c elbName instanceIds s = (Returned (Some e), s3)
  /\ RemoveInstancesFromLoadBalancer c elbName instanceIds s = (Returned (Some e), s4).
Proof.
  cbv zeta. intros H0 H1 H2 H3 H4. repeat split.
  - by eapply DoesELBExist_not_found.
  - by eapply removeListenersFromELB_forwards.
  - by eapply addListenersToELB_forwards.
  - by eapply AddLoadBalancerInstances_forwards.
  - by eapply RemoveInstancesFromLoadBalancer_forwards.
Qed.

Lemma not_found_is_an_error_for_mutations_witness :
  DoesELBExist (remote lenient) "ghost" public_api_lb
    = (Returned (false, "", None), public_api_lb)
  /\ SetLoadBalancerPrivate (remote lenient) "ghost" public_api_lb
     = (Returned (Some (no_such_lb "ghost")), public_api_lb)
  /\ SetLoadBalancerPublic (remote lenient) "ghost" 6443 public_api_lb
     = (Returned (Some (no_such_lb "ghost")), public_api_lb)
  /\ AddLoadBalancerInstances (remote lenient) "ghost" ["i-0a1"] public_api_lb
     = (Returned (Some (no_such_lb "ghost")), public_api_lb)
  /\ RemoveInstancesFromLoadBalancer (remote lenient) "ghost" ["i-0a1"] public_api_lb
     = (Returned (Some (no_such_lb "ghost")), public_api_lb).
Proof.
  apply (not_found_is_an_error_for_mutations (remote lenient) "ghost" 6443 ["i-0a1"]
           public_api_lb "There is no ACTIVE Load Balancer named 'ghost'"
           (Some {| DescribeLoadBalancersOutput_LoadBalancerDescriptions := [] |})
           public_api_lb
           (Some empty_output) public_api_lb (Some empty_output) public_api_lb
           (Some empty_output) public_api_lb (Some empty_output) public_api_lb);
    reflexivity.
Defined.

(** ** Compositions against the provider *)

(** X9.  [SetLoadBalancerPrivate] closes port 6443 only.  After
    [SetLoadBalancerPublic] has opened another, free port on an existing
    load balancer, a following [SetLoadBalancerPrivate] leaves the listener
    on that port in place, whether or not it finds a listener on 6443 to
    remove. *)
Theorem SetLoadBalancerPrivate_keeps_other_port P (s : gmap string LoadBalancer)
    elbName lb listenerPort :
  (forall r, fault P r = None) ->
  s !! elbName = Some lb ->
  listenerPort <> 6443 ->
  lb_listeners lb !! listenerPort = None ->
  exists s1 err2 s2,
    SetLoadBalancerPublic (remote P) elbName listenerPort s = (Returned None, s1)
    /\ SetLoadBalancerPrivate (remote P) elbName s1 = (Returned err2, s2)
    /\ listener_on s2 elbName listenerPort = Some (tcp_listener listenerPort)
    /\ listener_on s2 elbName 6443 = None.
Proof.
  intros Hf Hs Hp Hfree.
  rewrite (SetLoadBalancerPublic_remote P s elbName lb listenerPort (Hf _) Hs).
  unfold listener_clash. cbn [tcp_listener LoadBalancerPort]. rewrite Hfree.
  fold (tcp_listener listenerPort).
  set (ls1 := <[listenerPort:=tcp_listener listenerPort]> (lb_listeners lb)).
  set (s1 := <[elbName := with_listeners lb ls1]> s).
  assert (Hs1 : s1 !! elbName = Some (with_listeners lb ls1))
    by apply lookup_insert_eq.
  exists s1.
  rewrite (SetLoadBalancerPrivate_remote P s1 elbName _ (Hf _) Hs1).
  cbn [with_listeners lb_listeners].
  destruct (reports_absent_listener P && bool_decide (ls1 !! 6443 = None)) eqn:Hrep.
  - apply andb_true_iff in Hrep as [_ Habs%bool_decide_eq_true].
    eexists _, _. split; [done|]. split; [done|].
    rewrite !(listener_on_lookup s1 elbName _ _ Hs1). cbn [with_listeners lb_listeners].
    split; [apply lookup_insert_eq|done].
  - eexists _, _. split; [done|]. split; [done|].
    unfold s1. rewrite insert_insert_eq, !listener_on_insert. split.
    + rewrite lookup_delete_ne by done. apply lookup_insert_eq.
    + apply lookup_delete_eq.
Qed.

Lemma SetLoadBalancerPrivate_keeps_other_port_witness :
  exists s1 err2 s2,
    SetLoadBalancerPublic (remote lenient) "api-lb" 8443 public_api_lb
      = (Returned None, s1)
    /\ SetLoadBalancerPrivate (remote lenient) "api-lb" s1 = (Returned err2, s2)
    /\ listener_on s2 "api-lb" 8443 = Some (tcp_listener 8443)
    /\ listener_on s2 "api-lb" 6443 = None.
Proof.
  apply (SetLoadBalancerPrivate_keeps_other_port lenient public_api_lb "api-lb"
           {| lb_dns := "api-lb.elb.amazonaws.com";
              lb_subnets := ["subnet-a"; "subnet-b"];
              lb_listeners := {[ 6443 := tcp_listener 6443 ]};
              lb_health := None;
              lb_members := ∅ |} 8443); try reflexivity.
  discriminate.
Defined.

(** X10.  Deregistering the same instance ids a second time changes nothing:
    the second [RemoveInstancesFromLoadBalancer] returns what the first
    returned and leaves the provider in the state the first left it in.  On
    success the membership set is the old one without the ids given, on
    failure the old one. *)
Theorem RemoveInstancesFromLoadBalancer_idempotent P (s : gmap string LoadBalancer)
    elbName instanceIds :
  let once := RemoveInstancesFromLoadBalancer (remote P) elbName instanceIds s in
  let twice := RemoveInstancesFromLoadBalancer (remote P) elbName instanceIds once.2 in
  twice = once
  /\ members_of once.2 elbName =
     match once.1 with
     | Returned None => members_of s elbName ∖ list_to_set instanceIds
     | _ => members_of s elbName
     end.
Proof.
  cbv zeta.
  destruct (fault P (DeregisterInstancesFromLoadBalancerRequest
             {| DeregisterInstancesFromLoadBalancerInput_Instances :=
                  instances_of instanceIds;
                DeregisterInstancesFromLoadBalancerInput_LoadBalancerName := elbName |}))
    as [e|] eqn:Hf.
  - assert (Hrun : forall s', RemoveInstancesFromLoadBalancer (remote P) elbName
                                instanceIds s' = (Returned (Some e), s')).
    { intros s'. go_unfold. cbn -[instances_of ids_of].
      unfold remote_deregister. cbn -[instances_of ids_of]. by rewrite Hf. }
    rewrite !Hrun. cbn [fst snd]. rewrite ?Hrun. by repeat split.
  - destruct (s !! elbName) as [lb|] eqn:Hs.
    + rewrite (RemoveInstancesFromLoadBalancer_remote P s elbName lb instanceIds Hf Hs).
      cbn [fst snd]. split.
      * erewrite RemoveInstancesFromLoadBalancer_remote;
          [|exact Hf|apply lookup_insert_eq].
        rewrite insert_insert_eq, with_members_twice. do 3 f_equal.
        cbn [with_members lb_members].
        apply difference_disjoint_L, elem_of_disjoint.
        intros x [_ Hx]%elem_of_difference Hx'. by apply Hx.
      * by rewrite members_of_insert, (members_of_lookup s elbName lb Hs).
    + assert (Hrun : RemoveInstancesFromLoadBalancer (remote P) elbName instanceIds s
                     = (Returned (Some (no_such_lb elbName)), s)).
      { go_unfold. cbn -[instances_of ids_of].
        unfold remote_deregister. cbn -[instances_of ids_of]. by rewrite Hf, Hs. }
      rewrite !Hrun. cbn [fst snd]. rewrite ?Hrun. by repeat split.
Qed.

(** X11.  On an existing load balancer and a provider that turns no request
    down, [AddLoadBalancerInstances] followed by
    [RemoveInstancesFromLoadBalancer] with the same ids succeeds twice and
    leaves the old members without those ids; when none of the ids was a
    member before, the provider is back in the state it started from. *)
Theorem add_then_remove_instances P (s : gmap string LoadBalancer)
    elbName lb instanceIds :
  (forall r, fault P r = None) ->
  s !! elbName = Some lb ->
  exists s1 s2,
    AddLoadBalancerInstances (remote P) elbName instanceIds s = (Returned None, s1)
    /\ RemoveInstancesFromLoadBalancer (remote P) elbName instanceIds s1
       = (Returned None, s2)
    /\ members_of s2 elbName = lb_members lb ∖ list_to_set instanceIds
    /\ ((forall x, x ∈ instanceIds -> x ∉ lb_members lb) -> s2 = s).
Proof.
  intros Hf Hs.
  rewrite (AddLoadBalancerInstances_remote P s elbName lb instanceIds (Hf _) Hs).
  eexists _, _. split; [done|].
  erewrite RemoveInstancesFromLoadBalancer_remote;
    [|apply Hf|apply lookup_insert_eq].
  split; [done|]. rewrite insert_insert_eq, with_members_twice.
  assert (Hset : (lb_members lb ∪ list_to_set instanceIds) ∖ list_to_set instanceIds
                 = lb_members lb ∖ list_to_set instanceIds).
  { rewrite difference_union_distr_l_L, difference_diag_L.
    apply (right_id_L ∅ (∪)). }
  cbn [with_members lb_members]. rewrite Hset. split.
  - by rewrite members_of_insert.
  - intros Hout.
    rewrite (difference_disjoint_L (lb_members lb) (list_to_set instanceIds)).
    + rewrite with_members_same. by apply insert_id.
    + apply elem_of_disjoint. intros x Hin Hx.
      apply elem_of_list_to_set in Hx. by apply (Hout x).
Qed.

Lemma add_then_remove_instances_witness :
  exists s1 s2,
    AddLoadBalancerInstances (remote lenient) "api-lb" ["i-0c3"] joined_api_lb
      = (Returned None, s1)
    /\ RemoveInstancesFromLoadBalancer (remote lenient) "api-lb" ["i-0c3"] s1
       = (Returned None, s2)
    /\ s2 = joined_api_lb.
Proof.
  destruct (add_then_remove_instances lenient joined_api_lb "api-lb"
              {| lb_dns := "api-lb.elb.amazonaws.com";
                 lb_subnets := ["subnet-a"; "subnet-b"];
                 lb_listeners := {[ 6443 := tcp_listener 6443 ]};
                 lb_health := None;
                 lb_members := {[ "i-0a1"; "i-0b2" ]} |} ["i-0c3"])
    as (s1 & s2 & H1 & H2 & _ & Hback).
  - reflexivity.
  - reflexivity.
  - exists s1, s2. repeat split; [exact H1|exact H2|].
    apply Hback. intros x Hx. apply list_elem_of_singleton in Hx as ->.
    apply not_elem_of_union. split; apply not_elem_of_singleton; discriminate.
Defined.

(** X12.  On a free name and a provider that turns no request down,
    [CreateClassicELB] returns the DNS name the provider assigned and leaves
    a load balancer that [DoesELBExist] reports under the same DNS name, that
    listens on [listenerPort] with the TCP listener to the same backend port,
    that carries the HTTP:6443/ health check and has no members; the other
    load balancers are untouched. *)
Theorem CreateClassicELB_then_DoesELBExist P (s : gmap string LoadBalancer)
    elbName subnets listenerPort :
  (forall r, fault P r = None) ->
  s !! elbName = None ->
  exists dns s2,
    CreateClassicELB (remote P) elbName subnets listenerPort s
      = (Returned (dns, None), s2)
    /\ DoesELBExist (remote P) elbName s2 = (Returned (true, dns, None), s2)
    /\ listener_on s2 elbName listenerPort = Some (tcp_listener listenerPort)
    /\ lb_health <$> s2 !! elbName
       = Some (Some (ConfigureHealthCheckInput_HealthCheck
                       (default_health_check elbName)))
    /\ members_of s2 elbName = ∅
    /\ (forall other, other <> elbName -> s2 !! other = s !! other).
Proof.
  intros Hf Hfree. eexists _, _. split.
  - eapply CreateClassicELB_succeeds.
    + cbn [remote CreateLoadBalancer]. unfold remote_create.
      rewrite Hf. cbn [create_input CreateLoadBalancerInput_LoadBalancerName].
      rewrite Hfree. reflexivity.
    + cbn [remote ConfigureHealthCheck]. unfold remote_configure_health_check.
      rewrite Hf. cbn [default_health_check ConfigureHealthCheckInput_LoadBalancerName].
      rewrite lookup_insert_eq. reflexivity.
  - split; [|split; [|split; [|split]]].
    + erewrite DoesELBExist_remote; [|apply Hf|apply lookup_insert_eq]. done.
    + unfold listener_on. rewrite lookup_insert_eq. cbn.
      apply lookup_insert_eq.
    + by rewrite lookup_insert_eq.
    + unfold members_of. by rewrite lookup_insert_eq.
    + intros other Hother. by rewrite !lookup_insert_ne.
Qed.

Lemma CreateClassicELB_then_DoesELBExist_witness :
  exists dns s2,
    CreateClassicELB (remote strict) "api-lb" ["subnet-a"; "subnet-b"] 6443 ∅
      = (Returned (dns, None), s2)
    /\ DoesELBExist (remote strict) "api-lb" s2 = (Returned (true, dns, None), s2)
    /\ listener_on s2 "api-lb" 6443 = Some (tcp_listener 6443).
Proof.
  destruct (CreateClassicELB_then_DoesELBExist strict ∅ "api-lb"
              ["subnet-a"; "subnet-b"] 6443)
    as (dns & s2 & H1 & H2 & H3 & _).
  - reflexivity.
  - reflexivity.
  - exists dns, s2. repeat split; assumption.
Defined.

(** ** The listener calls *)

(** X13.  [SetLoadBalancerPrivate] and [SetLoadBalancerPublic] each make
    exactly one round trip and never panic.  The first asks to delete the
    listener on port 6443 of [elbName] and nothing else; the second asks to
    create one listener, TCP on both sides, whose frontend and backend port
    are both [listenerPort].  Each returns the error of its call as it is. *)
Theorem listener_calls_forward {St} (c : awsClient St) elbName listenerPort s log :
  let deleted := DeleteLoadBalancerListeners c (delete_6443_input elbName) s in
  let added :=
    CreateLoadBalancerListeners c (add_listener_input elbName listenerPort) s in
  SetLoadBalancerPrivate (recording c) elbName (s, log)
  = (Returned deleted.1.2,
     (deleted.2,
      (log ++ [DeleteLoadBalancerListenersRequest (delete_6443_input elbName)])%list))
  /\ SetLoadBalancerPublic (recording c) elbName listenerPort (s, log)
     = (Returned added.1.2,
        (added.2,
         (log ++ [CreateLoadBalancerListenersRequest
                    (add_listener_input elbName listenerPort)])%list))
  /\ CreateLoadBalancerListenersInput_Listeners (add_listener_input elbName listenerPort)
     = [{| InstancePort := listenerPort; InstanceProtocol := "tcp";
           Protocol := "tcp"; LoadBalancerPort := listenerPort |}].
Proof.
  cbv zeta. split; [|split; [|reflexivity]].
  - go_unfold. fold (delete_6443_input elbName).
    cbn [recording DeleteLoadBalancerListeners]. unfold recorded. cbn [fst snd].
    by destruct (DeleteLoadBalancerListeners c _ s) as [[o err] s1].
  - go_unfold. fold (tcp_listener listenerPort).
    fold (add_listener_input elbName listenerPort).
    cbn [recording CreateLoadBalancerListeners]. unfold recorded. cbn [fst snd].
    by destruct (CreateLoadBalancerListeners c _ s) as [[o err] s1].
Qed.
